(** * FluidX3D scenario driver (src/setup.cpp): boundary initialisation
      and the interactive run loop of [main_setup]. *)

From Stdlib Require Import ZArith Lia Bool String SpecFloat.
From stdpp Require Import base option list list_numbers.

Local Open Scope Z_scope.

(** ** Machine data *)

(** [uchar], [uint] and [ulong] are carried by [Z]; the wrap-around of
    unsigned arithmetic is written out where the code computes. *)
Definition uchar := Z.
Definition uint := Z.
Definition ulong := Z.

Definition wrap32 (z : Z) : uint := z mod 2 ^ 32.
Definition wrap64 (z : Z) : ulong := z mod 2 ^ 64.

(** A C++ [float] is an IEEE-754 binary32 datum.  The driver only copies
    such values, it never computes with them. *)
Definition float := spec_float.

(** [const float lbm_u = 0.075f;]  (bit pattern 0x3D99999A) *)
Definition lbm_u : float := S754_finite false 10066330 (-27).

(** [const ulong lbm_T = 108000ull;] *)
Definition lbm_T : ulong := 108000.

(** ** The engine object [lbm] as far as [main_setup] touches it *)

Record LBM := mkLBM {
  Nx : uint;
  Ny : uint;
  Nz : uint;
  flags : list uchar;
  u_x : list float;
  u_y : list float;
  u_z : list float;
  rho : list float;
  t : ulong
}.

Definition get_Nx (lbm : LBM) : uint := Nx lbm.
Definition get_Ny (lbm : LBM) : uint := Ny lbm.
Definition get_Nz (lbm : LBM) : uint := Nz lbm.
Definition get_t (lbm : LBM) : ulong := t lbm.

(** Modelled from the spec: [LBM::get_N] is not in src/; the pass runs
    over "every cell index n in [0, Nx*Ny*Nz)", the product being taken in
    [ulong]. *)
Definition get_N (lbm : LBM) : ulong := wrap64 (Nx lbm * Ny lbm * Nz lbm).

Definition with_flags (fl : list uchar) (lbm : LBM) : LBM :=
  mkLBM (Nx lbm) (Ny lbm) (Nz lbm) fl (u_x lbm) (u_y lbm) (u_z lbm) (rho lbm) (t lbm).

Definition with_u_x (ux : list float) (lbm : LBM) : LBM :=
  mkLBM (Nx lbm) (Ny lbm) (Nz lbm) (flags lbm) ux (u_y lbm) (u_z lbm) (rho lbm) (t lbm).

Definition with_t (t' : ulong) (lbm : LBM) : LBM :=
  mkLBM (Nx lbm) (Ny lbm) (Nz lbm) (flags lbm) (u_x lbm) (u_y lbm) (u_z lbm) (rho lbm) t'.

(** Every per-cell field holds one slot per cell. *)
Definition allocated (lbm : LBM) : Prop :=
  length (flags lbm) = Z.to_nat (get_N lbm) ∧
  length (u_x lbm) = Z.to_nat (get_N lbm) ∧
  length (u_y lbm) = Z.to_nat (get_N lbm) ∧
  length (u_z lbm) = Z.to_nat (get_N lbm) ∧
  length (rho lbm) = Z.to_nat (get_N lbm).

(** ** Array access

    [a[n]] on a field: a read or a write outside the allocation has no
    defined behaviour in C++, which the model reports as [None]. *)
Definition load {A} (a : list A) (n : ulong) : option A :=
  if bool_decide (0 ≤ n) then a !! Z.to_nat n else None.

Definition store {A} (a : list A) (n : ulong) (v : A) : option (list A) :=
  if bool_decide (0 ≤ n ∧ (Z.to_nat n < length a)%nat)
  then Some (<[Z.to_nat n := v]> a) else None.

(** ** [parallel_for]

    [parallel_for(N, body)] runs [body] once for every index of [0, N).
    The worker threads partition the index range; [for_each] runs the
    bodies one after the other along a schedule, and [parallel_for] takes
    the ascending one.  [boundary_init_any_schedule] below shows that
    for the body of [main_setup] the schedule is immaterial. *)
Fixpoint for_each {S} (body : ulong → S → option S) (sched : list ulong) (s : S)
  : option S :=
  match sched with
  | [] => Some s
  | n :: rest => s' ← body n s; for_each body rest s'
  end.

Definition parallel_for {S} (N : ulong) (body : ulong → S → option S) (s : S)
  : option S :=
  for_each body (seqZ 0 N) s.

(** ** Boundary initialisation (setup.cpp, lines 17-20) *)

(** Constants and helpers of the engine that setup.cpp uses but does not
    declare: the two cell tags and the index-to-coordinates conversion
    [lbm.coordinates(n, x, y, z)], which depends on the grid shape only. *)
Class Lattice := mkLattice {
  TYPE_S : uchar;
  TYPE_E : uchar;
  coordinates : uint → uint → uint → ulong → uint * uint * uint
}.

Section BoundaryInit.

Context {L : Lattice}.

(** [x==0u||x==Nx-1u||y==0u||y==Ny-1u||z==0u||z==Nz-1u] *)
Definition on_edge (Nx Ny Nz : uint) (xyz : uint * uint * uint) : bool :=
  let '(x, y, z) := xyz in
  (x =? 0) || (x =? wrap32 (Nx - 1)) ||
  (y =? 0) || (y =? wrap32 (Ny - 1)) ||
  (z =? 0) || (z =? wrap32 (Nz - 1)).

(** The cell [n] lies on one of the six outer faces of the grid. *)
Definition edge_cell (lbm : LBM) (n : ulong) : bool :=
  on_edge (get_Nx lbm) (get_Ny lbm) (get_Nz lbm)
          (coordinates (get_Nx lbm) (get_Ny lbm) (get_Nz lbm) n).

(** The lambda handed to [parallel_for]. *)
Definition init_cell (u : float) (n : ulong) (lbm : LBM) : option LBM :=
  let xyz := coordinates (get_Nx lbm) (get_Ny lbm) (get_Nz lbm) n in
  f ← load (flags lbm) n;
  lbm1 ← (if negb (f =? TYPE_S)
          then ux ← store (u_x lbm) n u; Some (with_u_x ux lbm)
          else Some lbm);
  if on_edge (get_Nx lbm) (get_Ny lbm) (get_Nz lbm) xyz
  then fl ← store (flags lbm1) n TYPE_E; Some (with_flags fl lbm1)
  else Some lbm1.

Definition boundary_init (u : float) (lbm : LBM) : option LBM :=
  parallel_for (get_N lbm) (init_cell u) lbm.

(** What one cell looks like once its body has run, in terms of the
    state before the pass. *)
Definition flag_after (lbm : LBM) (n : ulong) : option uchar :=
  if edge_cell lbm n then Some TYPE_E else flags lbm !! Z.to_nat n.

Definition u_x_after (u : float) (lbm : LBM) (n : ulong) : option float :=
  if bool_decide (flags lbm !! Z.to_nat n = Some TYPE_S)
  then u_x lbm !! Z.to_nat n else Some u.

(** Everything the pass must leave alone. *)
Definition same_frame (lbm lbm' : LBM) : Prop :=
  Nx lbm' = Nx lbm ∧ Ny lbm' = Ny lbm ∧ Nz lbm' = Nz lbm ∧
  u_y lbm' = u_y lbm ∧ u_z lbm' = u_z lbm ∧ rho lbm' = rho lbm ∧
  t lbm' = t lbm ∧
  length (flags lbm') = length (flags lbm) ∧
  length (u_x lbm') = length (u_x lbm).

End BoundaryInit.

(** Modelled from the spec: [LBM::coordinates] is not in src/; the spec
    only says the index [n] is converted to coordinates [(x, y, z)].  The
    theorems below hold for every conversion; this row-major one
    ([n = x + (y + z*Ny)*Nx]) serves the worked examples. *)
Definition coordinates_linear (Nx Ny Nz : uint) (n : ulong) : uint * uint * uint :=
  let t := n mod (Nx * Ny) in
  (wrap32 (t mod Nx), wrap32 (t / Nx), wrap32 (n / (Nx * Ny))).

(** ** Control signals and the engine interface (setup.cpp, lines 24-52) *)

(** The process-wide flags [running], [key_9] and [key_P], written by the
    input handler and polled by the loop. *)
Record Signals := mkSignals {
  running : bool;
  key_9 : bool;
  key_P : bool
}.

Definition set_key_9 (b : bool) (s : Signals) : Signals :=
  mkSignals (running s) b (key_P s).

(** The fields that have a [write_device_to_vtk]. *)
Inductive Field := Field_u | Field_rho | Field_flags | Field_F.

(** The calls [main_setup] makes to its collaborators, in order. *)
Inductive Event :=
| EvWriteStatus
| EvRun (steps total_steps : ulong)
| EvPrintInfo (msg : string)
| EvWriteVtk (field : Field) (path : string) (ok : bool)
| EvSleep.

(** The operations of the engine that the loop calls.  Their bodies are
    not in src/; an export reports whether its file was written, which
    the driver never inspects. *)
Record Engine := mkEngine {
  run : ulong → ulong → LBM → LBM;
  write_status : LBM → LBM;
  write_device_to_vtk : Field → string → LBM → LBM * bool
}.

(** Modelled from the spec: "advance the Engine by a fixed batch of
    steps"; a batch runs to completion. *)
Definition run_advances (E : Engine) : Prop :=
  ∀ steps total lbm, get_t (run E steps total lbm) = wrap64 (get_t lbm + steps).

(** Modelled from the spec: an export "does not advance t". *)
Definition export_keeps_t (E : Engine) : Prop :=
  ∀ f path lbm, get_t (fst (write_device_to_vtk E f path lbm)) = get_t lbm.

(** Modelled from the spec: the engine of the two laws above that does
    nothing else; it instantiates the worked examples. *)
Definition clock_engine : Engine :=
  mkEngine (λ steps _ lbm, with_t (wrap64 (get_t lbm + steps)) lbm)
           (λ lbm, lbm)
           (λ _ _ lbm, (lbm, true)).

(** What the driver sees and touches: the engine object, the signals and
    the calls made so far (oldest first). *)
Record World := mkWorld {
  lbm : LBM;
  sig : Signals;
  log : list Event
}.

(** What the input handler did to the signals before tick [k]. *)
Definition Env := nat → Signals → Signals.

Definition poll (env : Env) (k : nat) (w : World) : World :=
  mkWorld (lbm w) (env k (sig w)) (log w).

Inductive Outcome :=
| Terminated (w : World)
| OutOfFuel (w : World).

Definition world_of (o : Outcome) : World :=
  match o with Terminated w | OutOfFuel w => w end.

Definition manual_path : string :=
  "D:/projects/vinci4d/CFD/FluidX3D-master/bin/export/".

Section Controller.

Variable E : Engine.
(** [#ifdef FORCE_FIELD]: defines.hpp is not in src/. *)
Variable FORCE_FIELD : bool.

Definition call_write_status (w : World) : World :=
  mkWorld (write_status E (lbm w)) (sig w) (log w ++ [EvWriteStatus]).

Definition call_run (steps total_steps : ulong) (w : World) : World :=
  mkWorld (run E steps total_steps (lbm w)) (sig w)
          (log w ++ [EvRun steps total_steps]).

Definition print_info (msg : string) (w : World) : World :=
  mkWorld (lbm w) (sig w) (log w ++ [EvPrintInfo msg]).

Definition call_write_device_to_vtk (f : Field) (path : string) (w : World)
  : World :=
  let '(lbm', ok) := write_device_to_vtk E f path (lbm w) in
  mkWorld lbm' (sig w) (log w ++ [EvWriteVtk f path ok]).

Definition sleep (w : World) : World :=
  mkWorld (lbm w) (sig w) (log w ++ [EvSleep]).

(** The statements inside [if(key_9) { ... }], lines 30-41. *)
Definition export_snapshot (w : World) : World :=
  let w := print_info "Export triggered by key_9. Saving snapshot..." w in
  let w := call_write_device_to_vtk Field_u manual_path w in
  let w := call_write_device_to_vtk Field_rho manual_path w in
  let w := call_write_device_to_vtk Field_flags manual_path w in
  let w := if FORCE_FIELD
           then call_write_device_to_vtk Field_F manual_path w else w in
  let w := mkWorld (lbm w) (set_key_9 false (sig w)) (log w) in
  print_info (String.append "Snapshot saved to " manual_path) w.

(** "Handle VTK Export Trigger (key_9)", lines 29-42. *)
Definition handle_key_9 (w : World) : World :=
  if key_9 (sig w) then export_snapshot w else w.

(** One pass through the body of the [while], lines 28-50. *)
Definition loop_body (T : ulong) (w : World) : World :=
  let w := handle_key_9 w in
  if negb (key_P (sig w))
  then sleep w
  else call_run 20 T w.

(** [while(lbm.get_t()<=lbm_T && running)].  The signals are read as the
    input handler left them at the head of each tick. *)
Definition loop_guard (T : ulong) (w : World) : bool :=
  (get_t (lbm w) <=? T) && running (sig w).

Fixpoint main_loop (T : ulong) (env : Env) (fuel k : nat) (w : World)
  : Outcome :=
  match fuel with
  | O => OutOfFuel w
  | S fuel' =>
      let w := poll env k w in
      if loop_guard T w
      then main_loop T env fuel' (S k) (loop_body T w)
      else Terminated w
  end.

(** Lines 24-52: status, warm-up, loop, status. *)
Definition controller (T : ulong) (env : Env) (fuel : nat) (w : World)
  : Outcome :=
  let w := call_write_status w in
  let w := call_run 0 T w in
  match main_loop T env fuel 0 w with
  | Terminated w' => Terminated (call_write_status w')
  | OutOfFuel w' => OutOfFuel w'
  end.

End Controller.

(** ** [main_setup]

    [voxelize_stl] is the geometry importer (external; it may write any
    flags), [sig0] the signals when the function is entered.  The timing
    printout of line 16 and the visualization modes of line 21 have no
    part in what follows and are left out. *)
Definition main_setup {L : Lattice} (E : Engine) (FORCE_FIELD : bool) (voxelize_stl : LBM → LBM)
    (env : Env) (fuel : nat) (lbm0 : LBM) (sig0 : Signals) : option Outcome :=
  lbm1 ← boundary_init lbm_u (voxelize_stl lbm0);
  Some (controller E FORCE_FIELD lbm_T env fuel (mkWorld lbm1 sig0 [])).

(** Counters over the call log. *)
Definition is_batch (e : Event) : bool :=
  match e with EvRun steps _ => negb (steps =? 0) | _ => false end.
Definition is_status (e : Event) : bool :=
  match e with EvWriteStatus => true | _ => false end.
Definition is_vtk (e : Event) : bool :=
  match e with EvWriteVtk _ _ _ => true | _ => false end.

Definition count (p : Event → bool) (l : list Event) : nat :=
  length (List.filter p l).

Definition batches (l : list Event) : nat := count is_batch l.
Definition status_writes (l : list Event) : nat := count is_status l.
Definition vtk_writes (l : list Event) : nat := count is_vtk l.

(** ** Worked example: a 3x3x3 grid

    Tags as the engine numbers them (solid 0b01, equilibrium 0b10).  The
    voxelizer has solidified the corner cell 0 and the centre cell 13, the
    only interior cell of this grid; all velocities are zero. *)
Definition TYPE_S_bits : uchar := 1.
Definition TYPE_E_bits : uchar := 2.

Definition zero_f : float := S754_zero false.
Definition one_f : float := S754_finite false 8388608 (-23).

Definition voxelized_3x3x3 : LBM :=
  mkLBM 3 3 3
        (<[13%nat := TYPE_S_bits]> (<[0%nat := TYPE_S_bits]> (replicate 27 0)))
        (replicate 27 zero_f) (replicate 27 zero_f) (replicate 27 zero_f)
        (replicate 27 one_f) 0.

Definition fluidx3d : Lattice :=
  mkLattice TYPE_S_bits TYPE_E_bits coordinates_linear.

Definition go : Signals := mkSignals true false true.

Definition fresh_world : World := mkWorld voxelized_3x3x3 go [].

Definition triggered_world : World :=
  mkWorld voxelized_3x3x3 (mkSignals true true true) [].

(** [running] held true, the pause flag held in the running position. *)
Definition running_unpaused : Env :=
  λ _ s, mkSignals true (key_9 s) true.

(** The stop request arrives before tick [k0]. *)
Definition stop_before (k0 : nat) : Env :=
  λ k s, if (k0 <=? k)%nat then mkSignals false (key_9 s) (key_P s) else s.

(** The pause is held and the run goes on; [key_9] is pressed before tick 1. *)
Definition paused_key_9_at_1 : Env :=
  λ k s, mkSignals true (if (k =? 1)%nat then true else key_9 s) false.

(** [key_9] is pressed before tick 1, nothing else is touched. *)
Definition key_9_at_1 : Env :=
  λ k s, if (k =? 1)%nat then set_key_9 true s else s.

(** The handler never writes [running] or [key_P]. *)
Definition same_running_and_pause (a b : Signals) : Prop :=
  running b = running a ∧ key_P b = key_P a.

(** ** The pass in closed form

    The fields the pass leaves, written as one map over the fields it
    found; [boundary_init_closed_form] relates them to [boundary_init]. *)
Definition flags_after_pass {L : Lattice} (lbm : LBM) : list uchar :=
  imap (λ i f, if edge_cell lbm (Z.of_nat i) then TYPE_E else f) (flags lbm).

Definition u_x_after_pass {L : Lattice} (u : float) (lbm : LBM) : list float :=
  zip_with (λ f v, if f =? TYPE_S then v else u) (flags lbm) (u_x lbm).



(** The stop request is already there when the loop is first reached, and
    [key_9] has been pressed. *)
Definition stopped_key_9_pressed : Env :=
  λ _ s, mkSignals false true (key_P s).

(** The 3x3x3 grid with a flag field one slot short. *)
Definition short_flags_3x3x3 : LBM :=
  with_flags (replicate 26 0) voxelized_3x3x3.

(** A grid one cell thick, as a two-dimensional set-up has it. *)
Definition flat_3x3x1 : LBM :=
  mkLBM 3 3 1
        (<[4%nat := TYPE_S_bits]> (replicate 9 0))
        (replicate 9 zero_f) (replicate 9 zero_f) (replicate 9 zero_f)
        (replicate 9 one_f) 0.

(** * Properties of the boundary initialisation *)

Lemma load_Some {A} (a : list A) n x :
  load a n = Some x ↔ 0 ≤ n ∧ a !! Z.to_nat n = Some x.
Proof.
  unfold load. case_bool_decide; [tauto|]. split; [done|tauto].
Qed.

Lemma load_lt {A} (a : list A) n :
  0 ≤ n → (Z.to_nat n < length a)%nat → ∃ x, load a n = Some x.
Proof.
  intros Hn Hlt. destruct (lookup_lt_is_Some_2 a (Z.to_nat n) Hlt) as [x Hx].
  exists x. by apply load_Some.
Qed.

Lemma store_lt {A} (a : list A) n v :
  0 ≤ n → (Z.to_nat n < length a)%nat → store a n v = Some (<[Z.to_nat n := v]> a).
Proof.
  intros Hn Hlt. unfold store. by rewrite bool_decide_eq_true_2.
Qed.

Section BoundaryInitFacts.

Context {L : Lattice}.
Variable u : float.

Lemma same_frame_refl lbm : same_frame lbm lbm.
Proof. by repeat split. Qed.

Lemma same_frame_trans a b c : same_frame a b → same_frame b c → same_frame a c.
Proof. unfold same_frame. intros ? ?. intuition congruence. Qed.

Lemma same_frame_get_N a b : same_frame a b → get_N b = get_N a.
Proof. unfold same_frame, get_N. intros (-> & -> & -> & _). done. Qed.

Lemma same_frame_allocated a b : same_frame a b → allocated a → allocated b.
Proof.
  intros Hf Ha. pose proof (same_frame_get_N _ _ Hf) as HN.
  unfold allocated in *. rewrite HN. unfold same_frame in Hf.
  intuition congruence.
Qed.

Lemma same_frame_edge a b n : same_frame a b → edge_cell b n = edge_cell a n.
Proof.
  unfold same_frame, edge_cell, get_Nx, get_Ny, get_Nz.
  intros (-> & -> & -> & _). done.
Qed.

(** The body of one cell, run inside the allocation. *)
Lemma init_cell_in_range lbm n :
  allocated lbm → 0 ≤ n < get_N lbm →
  ∃ lbm', init_cell u n lbm = Some lbm' ∧ same_frame lbm lbm' ∧
    flags lbm' !! Z.to_nat n = flag_after lbm n ∧
    u_x lbm' !! Z.to_nat n = u_x_after u lbm n ∧
    (∀ i, i ≠ Z.to_nat n →
          flags lbm' !! i = flags lbm !! i ∧ u_x lbm' !! i = u_x lbm !! i).
Proof.
  intros (Hfl & Hux & _) [Hn0 HnN].
  assert (Hi : (Z.to_nat n < Z.to_nat (get_N lbm))%nat) by lia.
  destruct (load_lt (flags lbm) n Hn0) as [f Hf]; [lia|].
  pose proof (proj1 (load_Some _ _ _) Hf) as [_ Hlk].
  unfold init_cell, flag_after, u_x_after, edge_cell.
  rewrite Hf. simpl.
  destruct (Z.eqb_spec f TYPE_S) as [->|Hne]; simpl.
  - rewrite (bool_decide_eq_true_2 _ Hlk).
    destruct (on_edge _ _ _ _); simpl.
    + rewrite store_lt by lia. simpl. eexists; split; [done|].
      unfold same_frame, with_flags; simpl. rewrite length_insert.
      rewrite list_lookup_insert_eq by lia.
      repeat split; try done. by rewrite list_lookup_insert_ne.
    + eexists; split; [done|]. split; [apply same_frame_refl|]. done.
  - rewrite bool_decide_eq_false_2 by congruence.
    rewrite store_lt by lia. simpl.
    destruct (on_edge _ _ _ _); simpl.
    + rewrite store_lt by lia. simpl. eexists; split; [done|].
      unfold same_frame, with_flags, with_u_x; simpl. rewrite !length_insert.
      rewrite !list_lookup_insert_eq by lia.
      repeat split; try done; by rewrite list_lookup_insert_ne.
    + eexists; split; [done|].
      unfold same_frame, with_u_x; simpl. rewrite !length_insert.
      rewrite !list_lookup_insert_eq by lia.
      repeat split; try done; by rewrite list_lookup_insert_ne.
Qed.

(** The pass along any schedule that visits no cell twice: the visited
    cells end as [flag_after] and [u_x_after] say, all else is kept. *)
Lemma for_each_init_cell sched : ∀ lbm,
  allocated lbm → NoDup sched →
  (∀ n, n ∈ sched → 0 ≤ n < get_N lbm) →
  ∃ lbm', for_each (init_cell u) sched lbm = Some lbm' ∧ same_frame lbm lbm' ∧
    (∀ n, n ∈ sched →
          flags lbm' !! Z.to_nat n = flag_after lbm n ∧
          u_x lbm' !! Z.to_nat n = u_x_after u lbm n) ∧
    (∀ i, (∀ n, n ∈ sched → i ≠ Z.to_nat n) →
          flags lbm' !! i = flags lbm !! i ∧ u_x lbm' !! i = u_x lbm !! i).
Proof.
  induction sched as [|n rest IH]; intros lbm Ha Hnd Hrange.
  - exists lbm. simpl. split; [done|]. split; [apply same_frame_refl|].
    split; [intros n Hn; by apply not_elem_of_nil in Hn|done].
  - apply NoDup_cons in Hnd as [Hnotin Hnd].
    assert (Hn : 0 ≤ n < get_N lbm) by (apply Hrange; left).
    destruct (init_cell_in_range lbm n Ha Hn)
      as (lbm1 & Hcell & Hfr1 & Hfl1 & Hux1 & Hoth1).
    pose proof (same_frame_get_N _ _ Hfr1) as HN1.
    destruct (IH lbm1) as (lbm' & Hrun & Hfr & Hin & Hout).
    { by eapply same_frame_allocated. }
    { done. }
    { intros m Hm. rewrite HN1. apply Hrange. by right. }
    exists lbm'. simpl. rewrite Hcell. simpl.
    split; [done|]. split; [by eapply same_frame_trans|].
    assert (Hsep : ∀ m, m ∈ rest → Z.to_nat n ≠ Z.to_nat m).
    { intros m Hm Heq.
      assert (0 ≤ m < get_N lbm) by (apply Hrange; by right).
      assert (n = m) by lia. by subst. }
    split.
    + intros m Hm. apply elem_of_cons in Hm as [->|Hm].
      * destruct (Hout (Z.to_nat n) Hsep) as [-> ->]. done.
      * destruct (Hin m Hm) as [-> ->].
        destruct (Hoth1 (Z.to_nat m)) as [Hf Hu].
        { intros Heq. by apply (Hsep m). }
        unfold flag_after, u_x_after.
        by rewrite (same_frame_edge _ _ m Hfr1), Hf, Hu.
    + intros i Hi.
      destruct (Hout i) as [-> ->].
      { intros m Hm. apply Hi. by right. }
      apply Hoth1, Hi. left.
Qed.

(** The pass of [main_setup] runs to its end on an allocated grid. *)
Lemma boundary_init_cells lbm :
  allocated lbm →
  ∃ lbm', boundary_init u lbm = Some lbm' ∧ same_frame lbm lbm' ∧
    ∀ n, 0 ≤ n < get_N lbm →
         flags lbm' !! Z.to_nat n = flag_after lbm n ∧
         u_x lbm' !! Z.to_nat n = u_x_after u lbm n.
Proof.
  intros Ha.
  destruct (for_each_init_cell (seqZ 0 (get_N lbm)) lbm Ha)
    as (lbm' & Hrun & Hfr & Hin & _).
  { apply NoDup_seqZ. }
  { intros n Hn. apply elem_of_seqZ in Hn. lia. }
  exists lbm'. split; [done|]. split; [done|].
  intros n Hn. apply Hin, elem_of_seqZ. lia.
Qed.

(** The same, read through [load], for every index. *)
Lemma boundary_init_loads lbm :
  allocated lbm →
  ∃ lbm', boundary_init u lbm = Some lbm' ∧ same_frame lbm lbm' ∧
    ∀ n,
      (0 ≤ n < get_N lbm ∧ is_Some (load (flags lbm) n) ∧
       load (flags lbm') n = flag_after lbm n ∧
       load (u_x lbm') n = u_x_after u lbm n ∧
       load (flags lbm) n = flags lbm !! Z.to_nat n ∧
       load (u_x lbm) n = u_x lbm !! Z.to_nat n)
      ∨ (load (flags lbm') n = None ∧ load (flags lbm) n = None ∧
         load (u_x lbm') n = None ∧ load (u_x lbm) n = None).
Proof.
  intros Ha. destruct (boundary_init_cells lbm Ha) as (lbm' & Hrun & Hfr & Hin).
  exists lbm'. split; [done|]. split; [done|]. intros n.
  destruct Ha as (Hfl & Hux & _).
  destruct Hfr as (_ & _ & _ & _ & _ & _ & _ & Hlf & Hlu).
  destruct (decide (0 ≤ n < get_N lbm)) as [Hn|Hn].
  - left. destruct (Hin n Hn) as [Hf Hu]. unfold load.
    rewrite !bool_decide_eq_true_2 by lia.
    repeat split; try done; try lia.
    apply lookup_lt_is_Some_2. lia.
  - right. unfold load. case_bool_decide; [|done].
    rewrite !lookup_ge_None_2 by lia. done.
Qed.

(** The order in which the threads of [parallel_for] get to the cells
    does not show in the result. *)
Lemma boundary_init_any_schedule sched lbm :
  allocated lbm → sched ≡ₚ seqZ 0 (get_N lbm) →
  for_each (init_cell u) sched lbm = boundary_init u lbm.
Proof.
  intros Ha Hperm.
  destruct (boundary_init_cells lbm Ha) as (b & -> & Hfb & Hb).
  destruct (for_each_init_cell sched lbm Ha) as (a & -> & Hfa & Ha_in & _).
  { rewrite Hperm. apply NoDup_seqZ. }
  { intros n Hn. rewrite Hperm in Hn. apply elem_of_seqZ in Hn. lia. }
  f_equal.
  assert (Hcells : ∀ i, flags a !! i = flags b !! i ∧ u_x a !! i = u_x b !! i).
  { intros i. destruct Ha as (Hfl & Hux & _).
    destruct Hfa as (_ & _ & _ & _ & _ & _ & _ & Hla & Hlua).
    destruct Hfb as (_ & _ & _ & _ & _ & _ & _ & Hlb & Hlub).
    destruct (decide (i < Z.to_nat (get_N lbm))%nat) as [Hi|Hi].
    - assert (Hn : 0 ≤ Z.of_nat i < get_N lbm) by lia.
      destruct (Hb _ Hn) as [Hb1 Hb2].
      destruct (Ha_in (Z.of_nat i)) as [Ha1 Ha2].
      { rewrite Hperm. apply elem_of_seqZ. lia. }
      rewrite Nat2Z.id in *. split; congruence.
    - rewrite !lookup_ge_None_2 by lia. done. }
  assert (Hflags : flags a = flags b) by (apply list_eq; intros i; apply Hcells).
  assert (Hu_x : u_x a = u_x b) by (apply list_eq; intros i; apply Hcells).
  destruct Hfa as (? & ? & ? & ? & ? & ? & ? & _).
  destruct Hfb as (? & ? & ? & ? & ? & ? & ? & _).
  destruct a, b; simpl in *; congruence.
Qed.

End BoundaryInitFacts.

(** ** The claims about the pass *)

Section BoundaryInitClaims.

Context {L : Lattice}.
Variable u : float.

(** C1.  After the boundary-initialisation pass every cell on one of the
    six outer faces of the grid carries [TYPE_E], whatever flag the
    voxelizer had left in it ([lbm] is any allocated grid, so also one
    whose edge cells are [TYPE_S]). *)
Theorem C1_edge_cells_are_TYPE_E (lbm : LBM) :
  allocated lbm →
  ∃ lbm', boundary_init u lbm = Some lbm' ∧
    ∀ n, 0 ≤ n < get_N lbm → edge_cell lbm n = true →
         load (flags lbm') n = Some TYPE_E.
Proof.
  intros Ha. destruct (boundary_init_loads u lbm Ha) as (lbm' & Hrun & _ & Hall).
  exists lbm'. split; [done|]. intros n Hn Hedge.
  destruct (Hall n) as [(_ & _ & Hf & _)|(_ & Hnone & _)].
  - rewrite Hf. unfold flag_after. by rewrite Hedge.
  - exfalso. destruct Ha as (Hfl & _). unfold load in Hnone.
    rewrite bool_decide_eq_true_2 in Hnone by lia.
    apply lookup_ge_None_1 in Hnone. lia.
Qed.

(** C2, as amended.  After the pass every domain-edge cell carries
    [TYPE_E], hence is not [TYPE_S]; its velocity x-component is the
    inlet velocity [u] provided the cell was not [TYPE_S] when the pass
    visited it. *)
Theorem C2_edge_cells_open_and_seeded_unless_solid (lbm : LBM) :
  TYPE_E ≠ TYPE_S → allocated lbm →
  ∃ lbm', boundary_init u lbm = Some lbm' ∧
    ∀ n, 0 ≤ n < get_N lbm → edge_cell lbm n = true →
         load (flags lbm') n = Some TYPE_E ∧
         load (flags lbm') n ≠ Some TYPE_S ∧
         (load (flags lbm) n ≠ Some TYPE_S → load (u_x lbm') n = Some u).
Proof.
  intros Hne Ha.
  destruct (boundary_init_loads u lbm Ha) as (lbm' & Hrun & _ & Hall).
  exists lbm'. split; [done|]. intros n Hn Hedge.
  destruct (Hall n) as [(_ & _ & Hf & Hu & Hlf & _)|(_ & Hnone & _)].
  - rewrite Hf, Hu, Hlf. unfold flag_after, u_x_after. rewrite Hedge.
    split; [done|]. split; [congruence|].
    intros Hns. by rewrite bool_decide_eq_false_2.
  - exfalso. destruct Ha as (Hfl & _). unfold load in Hnone.
    rewrite bool_decide_eq_true_2 in Hnone by lia.
    apply lookup_ge_None_1 in Hnone. lia.
Qed.

(** C4.  A cell that is [TYPE_S] after voxelization and the pass was
    [TYPE_S] when the pass visited it and has the velocity x-component
    it had before; the pass changes [u.x] only where the flag it reads
    is not [TYPE_S], and the body of one cell leaves [u.x] alone when
    it reads [TYPE_S]. *)
Theorem C4_solid_cells_not_seeded (lbm : LBM) :
  TYPE_E ≠ TYPE_S → allocated lbm →
  ∃ lbm', boundary_init u lbm = Some lbm' ∧
    (∀ n, load (flags lbm') n = Some TYPE_S →
          load (flags lbm) n = Some TYPE_S ∧
          load (u_x lbm') n = load (u_x lbm) n) ∧
    (∀ n, load (u_x lbm') n ≠ load (u_x lbm) n →
          load (flags lbm) n ≠ Some TYPE_S) ∧
    (∀ n cell cell', init_cell u n cell = Some cell' →
          load (flags cell) n = Some TYPE_S → u_x cell' = u_x cell).
Proof.
  intros Hne Ha.
  destruct (boundary_init_loads u lbm Ha) as (lbm' & Hrun & _ & Hall).
  exists lbm'. split; [done|]. split; [|split].
  - intros n Hs.
    destruct (Hall n) as [(_ & _ & Hf & Hu & Hlf & Hlu)|(Hnone & _)];
      [|congruence].
    rewrite Hu, Hlf, Hlu. rewrite Hf in Hs. unfold flag_after in Hs.
    unfold u_x_after. destruct (edge_cell lbm n); [congruence|].
    by rewrite bool_decide_eq_true_2.
  - intros n Hch Hs.
    destruct (Hall n) as [(_ & _ & _ & Hu & Hlf & Hlu)|(_ & _ & Hn1 & Hn2)];
      [|congruence].
    apply Hch. rewrite Hu, Hlu. unfold u_x_after.
    rewrite bool_decide_eq_true_2; [done|congruence].
  - intros n cell cell' Hcell Hs. unfold init_cell in Hcell.
    rewrite Hs in Hcell. simpl in Hcell. rewrite Z.eqb_refl in Hcell.
    simpl in Hcell. destruct (on_edge _ _ _ _); simpl in Hcell.
    + destruct (store (flags cell) n TYPE_E); simplify_eq/=. done.
    + by simplify_eq.
Qed.

(** C9.  A domain-edge cell that is [TYPE_S] when the pass starts ends
    with flag [TYPE_E] and with the velocity x-component it had before
    the pass: the seed test reads the flag before the edge overwrite. *)
Theorem C9_solid_edge_cell_retagged_not_seeded (lbm : LBM) :
  allocated lbm →
  ∃ lbm', boundary_init u lbm = Some lbm' ∧
    ∀ n, 0 ≤ n < get_N lbm → edge_cell lbm n = true →
         load (flags lbm) n = Some TYPE_S →
         load (flags lbm') n = Some TYPE_E ∧
         load (u_x lbm') n = load (u_x lbm) n.
Proof.
  intros Ha.
  destruct (boundary_init_loads u lbm Ha) as (lbm' & Hrun & _ & Hall).
  exists lbm'. split; [done|]. intros n Hn Hedge Hs.
  destruct (Hall n) as [(_ & _ & Hf & Hu & Hlf & Hlu)|(_ & Hnone & _)];
    [|congruence].
  rewrite Hf, Hu, Hlu. unfold flag_after, u_x_after. rewrite Hedge.
  split; [done|]. rewrite bool_decide_eq_true_2; [done|congruence].
Qed.

(** C10.  The pass keeps the grid shape, the y and z velocity
    components, the density and the step counter; it keeps the velocity
    x-component of every cell that is [TYPE_S] when visited and the flag
    of every cell off the six outer faces; where a velocity x-component
    or a flag does change, it becomes [u], respectively [TYPE_E]. *)
Theorem C10_pass_frame (lbm : LBM) :
  allocated lbm →
  ∃ lbm', boundary_init u lbm = Some lbm' ∧
    u_y lbm' = u_y lbm ∧ u_z lbm' = u_z lbm ∧ rho lbm' = rho lbm ∧
    Nx lbm' = Nx lbm ∧ Ny lbm' = Ny lbm ∧ Nz lbm' = Nz lbm ∧ t lbm' = t lbm ∧
    (∀ n, load (flags lbm) n = Some TYPE_S →
          load (u_x lbm') n = load (u_x lbm) n) ∧
    (∀ n, edge_cell lbm n = false →
          load (flags lbm') n = load (flags lbm) n) ∧
    (∀ n, load (u_x lbm') n = load (u_x lbm) n ∨ load (u_x lbm') n = Some u) ∧
    (∀ n, load (flags lbm') n = load (flags lbm) n ∨
          load (flags lbm') n = Some TYPE_E).
Proof.
  intros Ha.
  destruct (boundary_init_loads u lbm Ha) as (lbm' & Hrun & Hfr & Hall).
  exists lbm'. split; [done|].
  destruct Hfr as (? & ? & ? & ? & ? & ? & ? & _).
  repeat (split; [done|]). repeat split.
  - intros n Hs.
    destruct (Hall n) as [(_ & _ & _ & Hu & Hlf & Hlu)|(_ & _ & Hn1 & Hn2)];
      [|congruence].
    rewrite Hu, Hlu. unfold u_x_after.
    rewrite bool_decide_eq_true_2; [done|congruence].
  - intros n Hedge.
    destruct (Hall n) as [(_ & _ & Hf & _ & Hlf & _)|(Hn1 & Hn2 & _)];
      [|congruence].
    rewrite Hf, Hlf. unfold flag_after. by rewrite Hedge.
  - intros n.
    destruct (Hall n) as [(_ & _ & _ & Hu & _ & Hlu)|(_ & _ & Hn1 & Hn2)];
      [|left; congruence].
    rewrite Hu, Hlu. unfold u_x_after. case_bool_decide; [by left|by right].
  - intros n.
    destruct (Hall n) as [(_ & _ & Hf & _ & Hlf & _)|(Hn1 & Hn2 & _)];
      [|left; congruence].
    rewrite Hf, Hlf. unfold flag_after.
    destruct (edge_cell lbm n); [by right|by left].
Qed.

End BoundaryInitClaims.

(** * Properties of the run loop *)

Lemma count_app p l1 l2 : count p (l1 ++ l2) = (count p l1 + count p l2)%nat.
Proof. unfold count. by rewrite List.filter_app, length_app. Qed.

Lemma loop_guard_false T w :
  loop_guard T w = false ↔ T < get_t (lbm w) ∨ running (sig w) = false.
Proof.
  unfold loop_guard. rewrite andb_false_iff, Z.leb_gt. done.
Qed.

Section ControllerFacts.

Variable E : Engine.
Variable FORCE_FIELD : bool.
Variable T : ulong.

(** The export block: what it logs, what it does to the signals. *)
Lemma export_snapshot_effect w :
  sig (export_snapshot E FORCE_FIELD w) = set_key_9 false (sig w) ∧
  ∃ ok_u ok_rho ok_flags ok_F,
    log (export_snapshot E FORCE_FIELD w) =
      log w ++
      [EvPrintInfo "Export triggered by key_9. Saving snapshot...";
       EvWriteVtk Field_u manual_path ok_u;
       EvWriteVtk Field_rho manual_path ok_rho;
       EvWriteVtk Field_flags manual_path ok_flags] ++
      (if FORCE_FIELD then [EvWriteVtk Field_F manual_path ok_F] else []) ++
      [EvPrintInfo (String.append "Snapshot saved to " manual_path)].
Proof.
  unfold export_snapshot, call_write_device_to_vtk, print_info.
  cbn [lbm sig log].
  destruct (write_device_to_vtk E Field_u manual_path (lbm w)) as [l1 o1].
  cbn [lbm sig log].
  destruct (write_device_to_vtk E Field_rho manual_path l1) as [l2 o2].
  cbn [lbm sig log].
  destruct (write_device_to_vtk E Field_flags manual_path l2) as [l3 o3].
  cbn [lbm sig log].
  destruct FORCE_FIELD.
  - destruct (write_device_to_vtk E Field_F manual_path l3) as [l4 o4].
    cbn [lbm sig log]. split; [done|]. exists o1, o2, o3, o4.
    by rewrite <- !app_assoc.
  - cbn [lbm sig log]. split; [done|]. exists o1, o2, o3, true.
    by rewrite <- !app_assoc.
Qed.

Lemma export_snapshot_t w :
  export_keeps_t E →
  get_t (lbm (export_snapshot E FORCE_FIELD w)) = get_t (lbm w).
Proof.
  intros Hk. unfold export_snapshot, call_write_device_to_vtk, print_info.
  cbn [lbm sig log].
  pose proof (Hk Field_u manual_path (lbm w)) as H1.
  destruct (write_device_to_vtk E Field_u manual_path (lbm w)) as [l1 o1].
  cbn [lbm sig log].
  pose proof (Hk Field_rho manual_path l1) as H2.
  destruct (write_device_to_vtk E Field_rho manual_path l1) as [l2 o2].
  cbn [lbm sig log].
  pose proof (Hk Field_flags manual_path l2) as H3.
  destruct (write_device_to_vtk E Field_flags manual_path l2) as [l3 o3].
  cbn [lbm sig log]. simpl in *.
  destruct FORCE_FIELD.
  - pose proof (Hk Field_F manual_path l3) as H4.
    destruct (write_device_to_vtk E Field_F manual_path l3) as [l4 o4].
    simpl in *. congruence.
  - simpl. congruence.
Qed.

Lemma handle_key_9_sig w :
  sig (handle_key_9 E FORCE_FIELD w) =
  if key_9 (sig w) then set_key_9 false (sig w) else sig w.
Proof.
  unfold handle_key_9. destruct (key_9 (sig w)); [|done].
  apply export_snapshot_effect.
Qed.

Lemma loop_body_eq w :
  loop_body E FORCE_FIELD T w =
  if negb (key_P (sig w)) then sleep (handle_key_9 E FORCE_FIELD w)
  else call_run E 20 T (handle_key_9 E FORCE_FIELD w).
Proof.
  unfold loop_body. cbv zeta.
  rewrite handle_key_9_sig. by destruct (key_9 (sig w)).
Qed.

Lemma loop_body_sig w :
  sig (loop_body E FORCE_FIELD T w) =
  if key_9 (sig w) then set_key_9 false (sig w) else sig w.
Proof.
  rewrite loop_body_eq, <- handle_key_9_sig.
  by destruct (negb (key_P (sig w))).
Qed.

Lemma handle_key_9_log w :
  ∃ added, log (handle_key_9 E FORCE_FIELD w) = log w ++ added ∧
    batches added = 0%nat ∧ status_writes added = 0%nat ∧
    vtk_writes added =
      (if key_9 (sig w) then if FORCE_FIELD then 4 else 3 else 0)%nat.
Proof.
  unfold handle_key_9. destruct (key_9 (sig w)).
  - destruct (export_snapshot_effect w) as (_ & o1 & o2 & o3 & o4 & ->).
    eexists; split; [done|]. by destruct FORCE_FIELD.
  - exists []. by rewrite app_nil_r.
Qed.

Lemma loop_body_log w :
  ∃ added, log (loop_body E FORCE_FIELD T w) = log w ++ added ∧
    batches added = (if key_P (sig w) then 1 else 0)%nat ∧
    status_writes added = 0%nat ∧
    vtk_writes added =
      (if key_9 (sig w) then if FORCE_FIELD then 4 else 3 else 0)%nat.
Proof.
  destruct (handle_key_9_log w) as (added & Hlog & Hb & Hs & Hv).
  rewrite loop_body_eq.
  destruct (key_P (sig w)); simpl; rewrite Hlog, <- app_assoc;
    eexists; (split; [done|]);
    unfold batches, status_writes, vtk_writes in *;
    rewrite !count_app, Hb, Hs, Hv; done.
Qed.

Lemma loop_body_t w :
  export_keeps_t E →
  get_t (lbm (loop_body E FORCE_FIELD T w)) =
  if key_P (sig w)
  then get_t (run E 20 T (lbm (handle_key_9 E FORCE_FIELD w)))
  else get_t (lbm w).
Proof.
  intros Hk. rewrite loop_body_eq.
  destruct (key_P (sig w)); simpl; [done|].
  unfold handle_key_9. destruct (key_9 (sig w)); [|done].
  by apply export_snapshot_t.
Qed.

Lemma handle_key_9_t w :
  export_keeps_t E → get_t (lbm (handle_key_9 E FORCE_FIELD w)) = get_t (lbm w).
Proof.
  intros Hk. unfold handle_key_9. destruct (key_9 (sig w)); [|done].
  by apply export_snapshot_t.
Qed.

Lemma loop_body_last w :
  log (loop_body E FORCE_FIELD T w) =
  log (handle_key_9 E FORCE_FIELD w) ++
  [if key_P (sig w) then EvRun 20 T else EvSleep].
Proof. rewrite loop_body_eq. by destruct (key_P (sig w)). Qed.

(** The loop only ever appends to the log, and never a status write. *)
Lemma main_loop_log env fuel : ∀ k w,
  ∃ added,
    log (world_of (main_loop E FORCE_FIELD T env fuel k w)) = log w ++ added ∧
    status_writes added = 0%nat.
Proof.
  induction fuel as [|fuel IH]; intros k w; simpl.
  - exists []. by rewrite app_nil_r.
  - destruct (loop_guard T (poll env k w)).
    + destruct (IH (S k) (loop_body E FORCE_FIELD T (poll env k w)))
        as (a2 & -> & H2).
      destruct (loop_body_log (poll env k w)) as (a1 & -> & _ & H1 & _).
      exists (a1 ++ a2). simpl. rewrite app_assoc. split; [done|].
      unfold status_writes in *. by rewrite count_app, H1, H2.
    + exists []. by rewrite app_nil_r.
Qed.

(** The loop is left only with its guard false. *)
Lemma main_loop_exit env fuel : ∀ k w w',
  main_loop E FORCE_FIELD T env fuel k w = Terminated w' →
  loop_guard T w' = false.
Proof.
  induction fuel as [|fuel IH]; intros k w w'; simpl; [done|].
  destruct (loop_guard T (poll env k w)) eqn:Hg.
  - apply IH.
  - intros [= <-]. done.
Qed.

(** Whatever relates the signals across the writes of the input handler
    and across a clearing of [key_9] relates them across the loop. *)
Lemma main_loop_signals (R : Signals → Signals → Prop) env fuel :
  (∀ s, R s s) → (∀ a b c, R a b → R b c → R a c) →
  (∀ k s, R s (env k s)) → (∀ s, R s (set_key_9 false s)) →
  ∀ k w, R (sig w) (sig (world_of (main_loop E FORCE_FIELD T env fuel k w))).
Proof.
  intros Hrefl Htrans Henv Hclear.
  induction fuel as [|fuel IH]; intros k w; simpl; [done|].
  destruct (loop_guard T (poll env k w)).
  - eapply Htrans; [|apply IH]. rewrite loop_body_sig. simpl.
    destruct (key_9 (env k (sig w))); [|done].
    eapply Htrans; [apply Henv|apply Hclear].
  - simpl. apply Henv.
Qed.

(** [n] more batches are due: the loop issues exactly those and stops. *)
Lemma main_loop_batches env :
  run_advances E → export_keeps_t E →
  (∀ k s, running (env k s) = true ∧ key_P (env k s) = true) →
  T + 20 < 2 ^ 64 →
  ∀ (n : nat) k w,
    0 ≤ get_t (lbm w) →
    T < get_t (lbm w) + 20 * Z.of_nat n →
    (n = 0%nat ∨ get_t (lbm w) + 20 * (Z.of_nat n - 1) ≤ T) →
    ∃ w', main_loop E FORCE_FIELD T env (S n) k w = Terminated w' ∧
      batches (log w') = (batches (log w) + n)%nat ∧
      get_t (lbm w') = get_t (lbm w) + 20 * Z.of_nat n.
Proof.
  intros Hrun Hexp Henv HT n.
  induction n as [|n IH]; intros k w Ht0 Hlo Hhi.
  - exists (poll env k w). cbn [main_loop].
    assert (Hg : loop_guard T (poll env k w) = false).
    { apply loop_guard_false. left. simpl. lia. }
    rewrite Hg. simpl. split; [done|]. split; lia.
  - destruct Hhi as [|Hhi]; [done|].
    destruct (Henv k (sig w)) as [Hr Hp].
    assert (Hg : loop_guard T (poll env k w) = true).
    { unfold loop_guard. simpl. rewrite Hr, andb_true_r. apply Z.leb_le. lia. }
    set (w1 := loop_body E FORCE_FIELD T (poll env k w)).
    assert (Ht1 : get_t (lbm w1) = get_t (lbm w) + 20).
    { unfold w1. rewrite loop_body_t by done. simpl. rewrite Hp.
      rewrite Hrun, handle_key_9_t by done. simpl.
      unfold wrap64. apply Z.mod_small. lia. }
    destruct (IH (S k) w1) as (w' & Hloop & Hb & Ht'); [lia..|].
    exists w'. split.
    + change (main_loop E FORCE_FIELD T env (S (S n)) k w)
        with (if loop_guard T (poll env k w)
              then main_loop E FORCE_FIELD T env (S n) (S k) w1
              else Terminated (poll env k w)).
      by rewrite Hg.
    + rewrite Hb, Ht'. split; [|lia].
      destruct (loop_body_log (poll env k w)) as (a & Hlog & Hba & _).
      fold w1 in Hlog. rewrite Hlog. unfold batches in *.
      rewrite count_app, Hba. simpl. rewrite Hp. lia.
Qed.

(** [N] ticks with the pause held: the loop is still running, the step
    counter and the number of batches are where they were, and a tick
    that found [key_9] set has exported. *)
Lemma main_loop_paused env :
  export_keeps_t E →
  ∀ (N : nat) k w,
    get_t (lbm w) ≤ T →
    (∀ j s, (k ≤ j < k + N)%nat →
            key_P (env j s) = false ∧ running (env j s) = true) →
    ∃ w', main_loop E FORCE_FIELD T env N k w = OutOfFuel w' ∧
      get_t (lbm w') = get_t (lbm w) ∧
      batches (log w') = batches (log w) ∧
      (vtk_writes (log w) ≤ vtk_writes (log w'))%nat ∧
      ((0 < N)%nat → key_9 (sig w') = false) ∧
      (∀ j, (k ≤ j < k + N)%nat → (∀ s, key_9 (env j s) = true) →
            (vtk_writes (log w) + 3 ≤ vtk_writes (log w'))%nat).
Proof.
  intros Hexp N. induction N as [|N IH]; intros k w Ht Henv.
  - exists w. simpl. repeat split; try done; lia.
  - destruct (Henv k (sig w)) as [Hp Hr]; [lia|].
    assert (Hg : loop_guard T (poll env k w) = true).
    { unfold loop_guard. simpl. rewrite Hr, andb_true_r. apply Z.leb_le. lia. }
    set (w1 := loop_body E FORCE_FIELD T (poll env k w)).
    assert (Ht1 : get_t (lbm w1) = get_t (lbm w)).
    { unfold w1. rewrite loop_body_t by done. simpl. by rewrite Hp. }
    destruct (loop_body_log (poll env k w)) as (a & Hlog & Hba & _ & Hva).
    fold w1 in Hlog. simpl in Hlog, Hba, Hva. rewrite Hp in Hba.
    assert (Hs1 : key_9 (sig w1) = false).
    { unfold w1. rewrite loop_body_sig. simpl.
      by destruct (key_9 (env k (sig w))) eqn:H9. }
    destruct (IH (S k) w1) as (w' & Hloop & Ht' & Hb' & Hv' & H9' & Hexports).
    { lia. }
    { intros j s Hj. apply Henv. lia. }
    exists w'. cbn [main_loop]. rewrite Hg. fold w1.
    split; [done|]. split; [congruence|].
    assert (Hb1 : batches (log w1) = batches (log w)).
    { rewrite Hlog. unfold batches in *. rewrite count_app, Hba. lia. }
    assert (Hv1 : vtk_writes (log w1) = (vtk_writes (log w) + vtk_writes a)%nat).
    { rewrite Hlog. unfold vtk_writes. by rewrite count_app. }
    split; [congruence|]. split; [lia|]. split.
    + intros _. destruct N as [|N'].
      * simpl in Hloop. by simplify_eq.
      * apply H9'. lia.
    + intros j Hj Hset.
      destruct (decide (j = k)) as [->|Hjk].
      * rewrite (Hset (sig w)) in Hva. destruct FORCE_FIELD; lia.
      * assert (vtk_writes (log w1) + 3 ≤ vtk_writes (log w'))%nat
          by (apply (Hexports j); [lia|done]).
        lia.
Qed.

End ControllerFacts.

(** ** The claims about the run loop *)

Section ControllerClaims.

Variable E : Engine.
Variable FORCE_FIELD : bool.

(** C3, as amended.  With step budget 100, batches of 20, the step
    counter at 0 when the loop is entered, [running] held true and the
    pause flag held in the running position, the loop issues exactly 6
    stepping batches (at t = 0, 20, 40, 60, 80 and 100, each of which
    satisfies t <= 100), ends with t = 120 and terminates.  In general
    the loop is left only with t > T or [running] false; a tick that
    finds t > T or [running] false leaves the loop at once, and any
    other tick runs the body and goes on to the next tick. *)
Theorem C3_six_batches_then_exit (env : Env) (w : World) :
  run_advances E → export_keeps_t E →
  get_t (lbm w) = 0 →
  (∀ k s, running (env k s) = true ∧ key_P (env k s) = true) →
  (∃ w', main_loop E FORCE_FIELD 100 env 7 0 w = Terminated w' ∧
         batches (log w') = (batches (log w) + 6)%nat ∧
         get_t (lbm w') = 120) ∧
  (∀ T env' fuel k v v',
     main_loop E FORCE_FIELD T env' fuel k v = Terminated v' →
     T < get_t (lbm v') ∨ running (sig v') = false) ∧
  (∀ T env' fuel k v,
     T < get_t (lbm (poll env' k v)) ∨ running (sig (poll env' k v)) = false →
     main_loop E FORCE_FIELD T env' (S fuel) k v = Terminated (poll env' k v)) ∧
  (∀ T env' fuel k v,
     get_t (lbm (poll env' k v)) ≤ T → running (sig (poll env' k v)) = true →
     main_loop E FORCE_FIELD T env' (S fuel) k v =
     main_loop E FORCE_FIELD T env' fuel (S k)
               (loop_body E FORCE_FIELD T (poll env' k v))).
Proof.
  intros Hrun Hexp Ht0 Henv. repeat split.
  - destruct (main_loop_batches E FORCE_FIELD 100 env Hrun Hexp Henv
                ltac:(lia) 6%nat 0%nat w) as (w' & Hloop & Hb & Ht);
      [lia | lia | right; lia |].
    exists w'. split; [done|]. split; [done|]. lia.
  - intros T env' fuel k v v' Hloop.
    apply loop_guard_false. by eapply main_loop_exit.
  - intros T env' fuel k v Hout. apply loop_guard_false in Hout.
    cbn [main_loop]. by rewrite Hout.
  - intros T env' fuel k v Ht Hr. cbn [main_loop].
    assert (Hg : loop_guard T (poll env' k v) = true).
    { unfold loop_guard. rewrite Hr, andb_true_r. by apply Z.leb_le. }
    by rewrite Hg.
Qed.

(** C5.  Through [N] ticks with the pause flag held in the paused
    position (and the run neither stopped nor out of budget) the loop
    keeps running, the step counter stays where it was and no stepping
    batch is issued; once a tick has been taken the trigger is clear;
    if [key_9] was set before one of these ticks, the three field
    exports have been written by the end of the [N] ticks.  In every
    tick that finds [key_9] set the exports come before the [run] or
    [sleep] of that tick, hence before any further stepping. *)
Theorem C5_pause_holds_time_and_honours_export
    (T : ulong) (env : Env) (N k : nat) (w : World) :
  export_keeps_t E →
  get_t (lbm w) ≤ T →
  (∀ j s, (k ≤ j < k + N)%nat →
          key_P (env j s) = false ∧ running (env j s) = true) →
  (∃ w', main_loop E FORCE_FIELD T env N k w = OutOfFuel w' ∧
     get_t (lbm w') = get_t (lbm w) ∧
     batches (log w') = batches (log w) ∧
     ((0 < N)%nat → key_9 (sig w') = false) ∧
     (∀ j, (k ≤ j < k + N)%nat → (∀ s, key_9 (env j s) = true) →
           (vtk_writes (log w) + 3 ≤ vtk_writes (log w'))%nat)) ∧
  (∀ v, key_9 (sig v) = true →
     ∃ ok_u ok_rho ok_flags ok_F,
       log (loop_body E FORCE_FIELD T v) =
         log v ++
         [EvPrintInfo "Export triggered by key_9. Saving snapshot...";
          EvWriteVtk Field_u manual_path ok_u;
          EvWriteVtk Field_rho manual_path ok_rho;
          EvWriteVtk Field_flags manual_path ok_flags] ++
         (if FORCE_FIELD then [EvWriteVtk Field_F manual_path ok_F] else []) ++
         [EvPrintInfo (String.append "Snapshot saved to " manual_path)] ++
         [if key_P (sig v) then EvRun 20 T else EvSleep]).
Proof.
  intros Hexp Ht Henv. split.
  - destruct (main_loop_paused E FORCE_FIELD T env Hexp N k w Ht Henv)
      as (w' & Hloop & Ht' & Hb & _ & H9 & Hv).
    exists w'. done.
  - intros v H9. rewrite loop_body_last. unfold handle_key_9. rewrite H9.
    destruct (export_snapshot_effect E FORCE_FIELD v)
      as (_ & o1 & o2 & o3 & o4 & ->).
    exists o1, o2, o3, o4. by rewrite <- !app_assoc.
Qed.

(** C6.  A tick that starts with [key_9] set ends with [key_9] false,
    whatever the exports report ([ok_u], [ok_rho], [ok_flags], [ok_F]
    are the engine's to choose); it makes one export call per field and
    no other.  A tick that starts with [key_9] false makes no export
    call, so one trigger gives at most one attempt. *)
Theorem C6_trigger_cleared_after_one_attempt (T : ulong) (w : World) :
  key_9 (sig w) = true →
  key_9 (sig (loop_body E FORCE_FIELD T w)) = false ∧
  (∃ ok_u ok_rho ok_flags ok_F last,
     log (loop_body E FORCE_FIELD T w) =
       log w ++
       [EvPrintInfo "Export triggered by key_9. Saving snapshot...";
        EvWriteVtk Field_u manual_path ok_u;
        EvWriteVtk Field_rho manual_path ok_rho;
        EvWriteVtk Field_flags manual_path ok_flags] ++
       (if FORCE_FIELD then [EvWriteVtk Field_F manual_path ok_F] else []) ++
       [EvPrintInfo (String.append "Snapshot saved to " manual_path); last] ∧
     is_vtk last = false) ∧
  (∀ v, key_9 (sig v) = false →
     key_9 (sig (loop_body E FORCE_FIELD T v)) = false ∧
     ∃ last, log (loop_body E FORCE_FIELD T v) = log v ++ [last] ∧
             is_vtk last = false).
Proof.
  intros H9. split; [|split].
  - rewrite loop_body_sig. by rewrite H9.
  - rewrite loop_body_last. unfold handle_key_9. rewrite H9.
    destruct (export_snapshot_effect E FORCE_FIELD w)
      as (_ & o1 & o2 & o3 & o4 & ->).
    exists o1, o2, o3, o4. eexists. split.
    + rewrite <- !app_assoc. simpl. done.
    + by destruct (key_P (sig w)).
  - intros v Hv. split.
    + rewrite loop_body_sig. by rewrite Hv.
    + rewrite loop_body_last. unfold handle_key_9. rewrite Hv.
      eexists. split; [done|]. by destruct (key_P (sig v)).
Qed.

(** C7.  Across the whole run the signals change only by what the input
    handler writes and by [key_9] being set to false: every relation
    [R] on signals that holds across the handler's writes and across a
    clearing of [key_9] holds between the signals at the start and at
    the end of the run.  Tick by tick, the body leaves the signals as
    they were unless it found [key_9] set, in which case it has run the
    exports and only [key_9] differs, now false; it never changes
    [running] or [key_P]; the status and run calls touch no signal. *)
Theorem C7_controller_writes_only_key_9
    (R : Signals → Signals → Prop) (T : ulong) (env : Env) (fuel : nat)
    (w : World) :
  (∀ s, R s s) → (∀ a b c, R a b → R b c → R a c) →
  (∀ k s, R s (env k s)) → (∀ s, R s (set_key_9 false s)) →
  R (sig w) (sig (world_of (controller E FORCE_FIELD T env fuel w))) ∧
  (∀ v, sig (loop_body E FORCE_FIELD T v) =
        if key_9 (sig v) then set_key_9 false (sig v) else sig v) ∧
  (∀ v, running (sig (loop_body E FORCE_FIELD T v)) = running (sig v) ∧
        key_P (sig (loop_body E FORCE_FIELD T v)) = key_P (sig v)) ∧
  (∀ v, sig (call_write_status E v) = sig v) ∧
  (∀ steps v, sig (call_run E steps T v) = sig v).
Proof.
  intros Hrefl Htrans Henv Hclear. repeat split.
  - unfold controller.
    pose proof (main_loop_signals E FORCE_FIELD T R env fuel
                  Hrefl Htrans Henv Hclear 0%nat
                  (call_run E 0 T (call_write_status E w))) as HR.
    simpl in HR.
    by destruct (main_loop E FORCE_FIELD T env fuel 0
                   (call_run E 0 T (call_write_status E w))).
  - intros v. apply loop_body_sig.
  - rewrite loop_body_sig. by destruct (key_9 (sig v)).
  - rewrite loop_body_sig. by destruct (key_9 (sig v)).
Qed.

(** C8.  A run that terminates, whichever way its loop was left, has
    called [write_status] exactly twice: first of all, right before the
    warm-up [run(0, T)], and last of all, after the loop. *)
Theorem C8_status_written_twice
    (T : ulong) (env : Env) (fuel : nat) (w w' : World) :
  controller E FORCE_FIELD T env fuel w = Terminated w' →
  status_writes (log w') = (status_writes (log w) + 2)%nat ∧
  ∃ during_loop,
    log w' = log w ++ [EvWriteStatus; EvRun 0 T] ++ during_loop ++ [EvWriteStatus] ∧
    status_writes during_loop = 0%nat.
Proof.
  unfold controller. intros Hrun.
  destruct (main_loop_log E FORCE_FIELD T env fuel 0%nat
              (call_run E 0 T (call_write_status E w))) as (mid & Hlog & Hmid).
  destruct (main_loop E FORCE_FIELD T env fuel 0
              (call_run E 0 T (call_write_status E w))) as [v|v]; [|done].
  injection Hrun as <-. simpl in *. rewrite Hlog.
  assert (Heq : ((log w ++ [EvWriteStatus]) ++ [EvRun 0 T]) ++ mid ++ [EvWriteStatus]
                = log w ++ [EvWriteStatus; EvRun 0 T] ++ mid ++ [EvWriteStatus]).
  { by rewrite <- !app_assoc. }
  rewrite <- app_assoc, Heq. split; [|by exists mid].
  unfold status_writes in *. rewrite !count_app, Hmid. unfold count. simpl. lia.
Qed.

End ControllerClaims.

(** [main_setup] as a whole: once the voxelizer has returned an allocated
    grid the pass completes and the run loop is entered with its result. *)
Lemma main_setup_enters_loop {L : Lattice} E FORCE_FIELD voxelize_stl env fuel
    lbm0 sig0 :
  allocated (voxelize_stl lbm0) →
  ∃ lbm1, boundary_init lbm_u (voxelize_stl lbm0) = Some lbm1 ∧
    main_setup E FORCE_FIELD voxelize_stl env fuel lbm0 sig0 =
    Some (controller E FORCE_FIELD lbm_T env fuel (mkWorld lbm1 sig0 [])).
Proof.
  intros Ha.
  destruct (boundary_init_cells lbm_u _ Ha) as (lbm1 & Hpass & _).
  exists lbm1. split; [done|]. unfold main_setup. by rewrite Hpass.
Qed.

(** * The claims on the worked examples *)

Lemma clock_engine_advances : run_advances clock_engine.
Proof. intros steps total l. reflexivity. Qed.

Lemma clock_engine_keeps_t : export_keeps_t clock_engine.
Proof. intros f path l. reflexivity. Qed.

(** The pass on the 3x3x3 grid: all 26 edge cells become [TYPE_E], the
    solid corner keeps its zero velocity, the solid centre is untouched. *)
Example boundary_init_3x3x3 :
  @boundary_init fluidx3d lbm_u voxelized_3x3x3 =
  Some (mkLBM 3 3 3
          (<[13%nat := TYPE_S_bits]> (replicate 27 TYPE_E_bits))
          (<[13%nat := zero_f]> (<[0%nat := zero_f]> (replicate 27 lbm_u)))
          (replicate 27 zero_f) (replicate 27 zero_f) (replicate 27 one_f) 0).
Proof. vm_compute. reflexivity. Qed.

Lemma C1_witness :
  allocated voxelized_3x3x3 ∧
  ∃ lbm', @boundary_init fluidx3d lbm_u voxelized_3x3x3 = Some lbm' ∧
    ∀ n, 0 ≤ n < get_N voxelized_3x3x3 →
         @edge_cell fluidx3d voxelized_3x3x3 n = true →
         load (flags lbm') n = Some (@TYPE_E fluidx3d).
Proof.
  assert (Ha : allocated voxelized_3x3x3) by (repeat split).
  split; [exact Ha|].
  exact (@C1_edge_cells_are_TYPE_E fluidx3d lbm_u voxelized_3x3x3 Ha).
Defined.

(** C2 as the spec states it fails on the 3x3x3 grid: cell 0 lies on the
    edge, and after the pass its velocity x-component is still zero, not
    the inlet velocity. *)
Lemma C2_counterexample :
  ∃ lbm', @boundary_init fluidx3d lbm_u voxelized_3x3x3 = Some lbm' ∧
    0 ≤ 0 < get_N voxelized_3x3x3 ∧
    @edge_cell fluidx3d voxelized_3x3x3 0 = true ∧
    ¬ (load (flags lbm') 0 = Some (@TYPE_E fluidx3d) ∧
       load (u_x lbm') 0 = Some lbm_u).
Proof.
  eexists. split; [apply boundary_init_3x3x3|].
  split; [by vm_compute|]. split; [reflexivity|].
  intros [_ Hu]. vm_compute in Hu. discriminate Hu.
Qed.

Lemma C2_witness :
  @TYPE_E fluidx3d ≠ @TYPE_S fluidx3d ∧ allocated voxelized_3x3x3 ∧
  ∃ lbm', @boundary_init fluidx3d lbm_u voxelized_3x3x3 = Some lbm' ∧
    ∀ n, 0 ≤ n < get_N voxelized_3x3x3 →
         @edge_cell fluidx3d voxelized_3x3x3 n = true →
         load (flags lbm') n = Some (@TYPE_E fluidx3d) ∧
         load (flags lbm') n ≠ Some (@TYPE_S fluidx3d) ∧
         (load (flags voxelized_3x3x3) n ≠ Some (@TYPE_S fluidx3d) →
          load (u_x lbm') n = Some lbm_u).
Proof.
  assert (Hne : @TYPE_E fluidx3d ≠ @TYPE_S fluidx3d) by (vm_compute; discriminate).
  assert (Ha : allocated voxelized_3x3x3) by (repeat split).
  split; [exact Hne|]. split; [exact Ha|].
  exact (@C2_edge_cells_open_and_seeded_unless_solid fluidx3d lbm_u
           voxelized_3x3x3 Hne Ha).
Defined.

Lemma C4_witness :
  @TYPE_E fluidx3d ≠ @TYPE_S fluidx3d ∧ allocated voxelized_3x3x3 ∧
  ∃ lbm', @boundary_init fluidx3d lbm_u voxelized_3x3x3 = Some lbm' ∧
    (∀ n, load (flags lbm') n = Some (@TYPE_S fluidx3d) →
          load (flags voxelized_3x3x3) n = Some (@TYPE_S fluidx3d) ∧
          load (u_x lbm') n = load (u_x voxelized_3x3x3) n) ∧
    (∀ n, load (u_x lbm') n ≠ load (u_x voxelized_3x3x3) n →
          load (flags voxelized_3x3x3) n ≠ Some (@TYPE_S fluidx3d)) ∧
    (∀ n cell cell', @init_cell fluidx3d lbm_u n cell = Some cell' →
          load (flags cell) n = Some (@TYPE_S fluidx3d) → u_x cell' = u_x cell).
Proof.
  assert (Hne : @TYPE_E fluidx3d ≠ @TYPE_S fluidx3d) by (vm_compute; discriminate).
  assert (Ha : allocated voxelized_3x3x3) by (repeat split).
  split; [exact Hne|]. split; [exact Ha|].
  exact (@C4_solid_cells_not_seeded fluidx3d lbm_u voxelized_3x3x3 Hne Ha).
Defined.

Lemma C9_witness :
  allocated voxelized_3x3x3 ∧
  ∃ lbm', @boundary_init fluidx3d lbm_u voxelized_3x3x3 = Some lbm' ∧
    ∀ n, 0 ≤ n < get_N voxelized_3x3x3 →
         @edge_cell fluidx3d voxelized_3x3x3 n = true →
         load (flags voxelized_3x3x3) n = Some (@TYPE_S fluidx3d) →
         load (flags lbm') n = Some (@TYPE_E fluidx3d) ∧
         load (u_x lbm') n = load (u_x voxelized_3x3x3) n.
Proof.
  assert (Ha : allocated voxelized_3x3x3) by (repeat split).
  split; [exact Ha|].
  exact (@C9_solid_edge_cell_retagged_not_seeded fluidx3d lbm_u
           voxelized_3x3x3 Ha).
Defined.

(** The solid corner of the 3x3x3 grid: on the edge, solid before the
    pass, [TYPE_E] after it, velocity still zero. *)
Example solid_corner_3x3x3 :
  @edge_cell fluidx3d voxelized_3x3x3 0 = true ∧
  load (flags voxelized_3x3x3) 0 = Some TYPE_S_bits ∧
  (lbm' ← @boundary_init fluidx3d lbm_u voxelized_3x3x3;
   Some (load (flags lbm') 0, load (u_x lbm') 0)) =
  Some (Some TYPE_E_bits, Some zero_f).
Proof. by vm_compute. Qed.

Lemma C10_witness :
  allocated voxelized_3x3x3 ∧
  ∃ lbm', @boundary_init fluidx3d lbm_u voxelized_3x3x3 = Some lbm' ∧
    u_y lbm' = u_y voxelized_3x3x3 ∧ u_z lbm' = u_z voxelized_3x3x3 ∧
    rho lbm' = rho voxelized_3x3x3 ∧
    Nx lbm' = Nx voxelized_3x3x3 ∧ Ny lbm' = Ny voxelized_3x3x3 ∧
    Nz lbm' = Nz voxelized_3x3x3 ∧ t lbm' = t voxelized_3x3x3 ∧
    (∀ n, load (flags voxelized_3x3x3) n = Some (@TYPE_S fluidx3d) →
          load (u_x lbm') n = load (u_x voxelized_3x3x3) n) ∧
    (∀ n, @edge_cell fluidx3d voxelized_3x3x3 n = false →
          load (flags lbm') n = load (flags voxelized_3x3x3) n) ∧
    (∀ n, load (u_x lbm') n = load (u_x voxelized_3x3x3) n ∨
          load (u_x lbm') n = Some lbm_u) ∧
    (∀ n, load (flags lbm') n = load (flags voxelized_3x3x3) n ∨
          load (flags lbm') n = Some (@TYPE_E fluidx3d)).
Proof.
  assert (Ha : allocated voxelized_3x3x3) by (repeat split).
  split; [exact Ha|].
  exact (@C10_pass_frame fluidx3d lbm_u voxelized_3x3x3 Ha).
Defined.

(** C3 as the spec states it fails: from t = 0 with budget 100 the loop
    issues 6 batches, not 5 or fewer, also when entered through the
    status write and the warm-up [run(0, T)]. *)
Lemma C3_counterexample :
  (∀ k s, running (running_unpaused k s) = true ∧
          key_P (running_unpaused k s) = true) ∧
  (∃ w', main_loop clock_engine false 100 running_unpaused 7 0 fresh_world
         = Terminated w' ∧
     batches (log w') = 6%nat ∧ get_t (lbm w') = 120 ∧
     ¬ (batches (log w') ≤ 5)%nat) ∧
  (∃ w', controller clock_engine false 100 running_unpaused 7 fresh_world
         = Terminated w' ∧
     batches (log w') = 6%nat ∧ ¬ (batches (log w') ≤ 5)%nat).
Proof.
  split; [done|]. split.
  - eexists. split; [by vm_compute|].
    split; [by vm_compute|]. split; [by vm_compute|]. vm_compute. lia.
  - eexists. split; [by vm_compute|]. split; [by vm_compute|]. vm_compute. lia.
Qed.

Lemma C3_witness :
  run_advances clock_engine ∧ export_keeps_t clock_engine ∧
  get_t (lbm fresh_world) = 0 ∧
  (∀ k s, running (running_unpaused k s) = true ∧
          key_P (running_unpaused k s) = true) ∧
  ∃ w', main_loop clock_engine false 100 running_unpaused 7 0 fresh_world
        = Terminated w' ∧
    batches (log w') = (batches (log fresh_world) + 6)%nat ∧
    get_t (lbm w') = 120.
Proof.
  assert (Henv : ∀ k s, running (running_unpaused k s) = true ∧
                        key_P (running_unpaused k s) = true)
    by (intros k s; split; reflexivity).
  split; [exact clock_engine_advances|].
  split; [exact clock_engine_keeps_t|].
  split; [reflexivity|]. split; [exact Henv|].
  exact (proj1 (C3_six_batches_then_exit clock_engine false running_unpaused
                  fresh_world clock_engine_advances clock_engine_keeps_t
                  eq_refl Henv)).
Defined.

(** The budget of [main_setup] itself: 5401 batches, ending at t = 108020. *)
Example lbm_T_batches :
  ∃ w', main_loop clock_engine false lbm_T running_unpaused
                  (S (Z.to_nat 5401)) 0 fresh_world = Terminated w' ∧
    Z.of_nat (batches (log w')) = 5401 ∧ get_t (lbm w') = 108020.
Proof.
  assert (Ht0 : get_t (lbm fresh_world) = 0) by reflexivity.
  assert (Hb0 : batches (log fresh_world) = 0%nat) by reflexivity.
  destruct (main_loop_batches clock_engine false lbm_T running_unpaused
              clock_engine_advances clock_engine_keeps_t
              ltac:(intros; split; reflexivity) ltac:(unfold lbm_T; lia)
              (Z.to_nat 5401) 0%nat fresh_world)
    as (w' & Hloop & Hb & Ht).
  - rewrite Ht0. lia.
  - rewrite Ht0. unfold lbm_T. lia.
  - right. rewrite Ht0. unfold lbm_T. lia.
  - exists w'. split; [exact Hloop|]. rewrite Hb, Ht, Hb0, Ht0. lia.
Qed.

Lemma C5_witness :
  export_keeps_t clock_engine ∧
  get_t (lbm fresh_world) ≤ 100 ∧
  (∀ j s, (0 ≤ j < 0 + 3)%nat →
          key_P (paused_key_9_at_1 j s) = false ∧
          running (paused_key_9_at_1 j s) = true) ∧
  ∃ w', main_loop clock_engine false 100 paused_key_9_at_1 3 0 fresh_world
        = OutOfFuel w' ∧
    get_t (lbm w') = get_t (lbm fresh_world) ∧
    batches (log w') = batches (log fresh_world) ∧
    ((0 < 3)%nat → key_9 (sig w') = false) ∧
    (∀ j, (0 ≤ j < 0 + 3)%nat → (∀ s, key_9 (paused_key_9_at_1 j s) = true) →
          (vtk_writes (log fresh_world) + 3 ≤ vtk_writes (log w'))%nat).
Proof.
  assert (Ht : get_t (lbm fresh_world) ≤ 100) by (vm_compute; discriminate).
  assert (Henv : ∀ j s, (0 ≤ j < 0 + 3)%nat →
                        key_P (paused_key_9_at_1 j s) = false ∧
                        running (paused_key_9_at_1 j s) = true)
    by (intros j s _; split; reflexivity).
  split; [exact clock_engine_keeps_t|]. split; [exact Ht|].
  split; [exact Henv|].
  exact (proj1 (C5_pause_holds_time_and_honours_export clock_engine false 100
                  paused_key_9_at_1 3 0 fresh_world clock_engine_keeps_t
                  Ht Henv)).
Defined.

(** Three paused ticks with [key_9] pressed before the second one: the
    snapshot is written in that tick, between two sleeps, and t stays 0. *)
Example paused_export_trace :
  main_loop clock_engine false 100 paused_key_9_at_1 3 0 fresh_world =
  OutOfFuel
    (mkWorld voxelized_3x3x3 (mkSignals true false false)
       [EvSleep;
        EvPrintInfo "Export triggered by key_9. Saving snapshot...";
        EvWriteVtk Field_u manual_path true;
        EvWriteVtk Field_rho manual_path true;
        EvWriteVtk Field_flags manual_path true;
        EvPrintInfo (String.append "Snapshot saved to " manual_path);
        EvSleep; EvSleep]).
Proof. vm_compute. reflexivity. Qed.

Lemma C6_witness :
  key_9 (sig triggered_world) = true ∧
  key_9 (sig (loop_body clock_engine false 100 triggered_world)) = false.
Proof.
  split; [reflexivity|].
  exact (proj1 (C6_trigger_cleared_after_one_attempt clock_engine false 100
                  triggered_world eq_refl)).
Defined.

Lemma C7_witness :
  (∀ s, same_running_and_pause s s) ∧
  (∀ k s, same_running_and_pause s (key_9_at_1 k s)) ∧
  same_running_and_pause
    (sig fresh_world)
    (sig (world_of (controller clock_engine false 30 key_9_at_1 10 fresh_world))).
Proof.
  assert (Hrefl : ∀ s, same_running_and_pause s s) by (intros s; split; reflexivity).
  assert (Htrans : ∀ a b c, same_running_and_pause a b →
                            same_running_and_pause b c →
                            same_running_and_pause a c).
  { intros a b c [H1 H2] [H3 H4]. split.
    - exact (eq_trans H3 H1).
    - exact (eq_trans H4 H2). }
  assert (Henv : ∀ k s, same_running_and_pause s (key_9_at_1 k s)).
  { intros k s. unfold key_9_at_1. destruct (k =? 1)%nat; split; reflexivity. }
  assert (Hclear : ∀ s, same_running_and_pause s (set_key_9 false s))
    by (intros s; split; reflexivity).
  split; [exact Hrefl|]. split; [exact Henv|].
  exact (proj1 (C7_controller_writes_only_key_9 clock_engine false
                  same_running_and_pause 30 key_9_at_1 10 fresh_world
                  Hrefl Htrans Henv Hclear)).
Defined.

Lemma C8_witness :
  controller clock_engine false 100 running_unpaused 10 fresh_world =
    Terminated (world_of (controller clock_engine false 100 running_unpaused
                            10 fresh_world)) ∧
  status_writes
    (log (world_of (controller clock_engine false 100 running_unpaused
                      10 fresh_world))) =
  (status_writes (log fresh_world) + 2)%nat.
Proof.
  assert (Hrun : controller clock_engine false 100 running_unpaused 10 fresh_world =
                 Terminated (world_of (controller clock_engine false 100
                                         running_unpaused 10 fresh_world)))
    by (vm_compute; reflexivity).
  split; [exact Hrun|].
  exact (proj1 (C8_status_written_twice clock_engine false 100 running_unpaused
                  10 fresh_world _ Hrun)).
Defined.

(** Both ways out of the loop, on the clock engine: the budget runs out,
    or the stop request arrives before tick 2. *)
Example run_to_budget :
  log (world_of (controller clock_engine false 100 running_unpaused 10 fresh_world)) =
  [EvWriteStatus; EvRun 0 100; EvRun 20 100; EvRun 20 100; EvRun 20 100;
   EvRun 20 100; EvRun 20 100; EvRun 20 100; EvWriteStatus].
Proof. vm_compute. reflexivity. Qed.

Example run_stopped :
  controller clock_engine false 100 (stop_before 2) 10 fresh_world =
  Terminated
    (mkWorld (with_t 40 voxelized_3x3x3) (mkSignals false false true)
       [EvWriteStatus; EvRun 0 100; EvRun 20 100; EvRun 20 100; EvWriteStatus]).
Proof. vm_compute. reflexivity. Qed.


(** * Further properties of the boundary initialisation *)

Section BoundaryInitMore.

Context {L : Lattice}.
Variable u : float.

(** X1.  The result of the pass does not depend on the order in which the
    worker threads of [parallel_for] visit the cells: along any schedule
    that is a permutation of [0, N) the cell bodies give the state that
    the ascending order gives. *)
Theorem X1_pass_schedule_independent (sched : list ulong) (lbm : LBM) :
  allocated lbm → sched ≡ₚ seqZ 0 (get_N lbm) →
  for_each (init_cell u) sched lbm = boundary_init u lbm ∧
  is_Some (boundary_init u lbm).
Proof.
  intros Ha Hperm. split.
  - by apply boundary_init_any_schedule.
  - destruct (boundary_init_cells u lbm Ha) as (lbm' & -> & _). by eexists.
Qed.

(** X2.  Every cell, interior or on the edge, whose flag is not [TYPE_S]
    when the pass visits it ends with velocity x-component [u]. *)
Theorem X2_non_solid_cells_seeded (lbm : LBM) :
  allocated lbm →
  ∃ lbm', boundary_init u lbm = Some lbm' ∧
    ∀ n, 0 ≤ n < get_N lbm → load (flags lbm) n ≠ Some TYPE_S →
         load (u_x lbm') n = Some u.
Proof.
  intros Ha.
  destruct (boundary_init_loads u lbm Ha) as (lbm' & Hrun & _ & Hall).
  exists lbm'. split; [done|]. intros n Hn Hns.
  destruct (Hall n) as [(_ & _ & _ & Hu & Hlf & _)|(_ & Hnone & _)].
  - rewrite Hu. unfold u_x_after. rewrite bool_decide_eq_false_2; [done|].
    by rewrite <- Hlf.
  - exfalso. destruct Ha as (Hfl & _). unfold load in Hnone.
    rewrite bool_decide_eq_true_2 in Hnone by lia.
    apply lookup_ge_None_1 in Hnone. lia.
Qed.

(** X3.  The pass in closed form: on an allocated grid it returns the grid
    whose flag field has [TYPE_E] at the edge cells and the old flag
    elsewhere, whose velocity x field has the old value at the cells that
    were [TYPE_S] and [u] elsewhere, and which is otherwise the same. *)
Theorem X3_boundary_init_closed_form (lbm : LBM) :
  allocated lbm →
  boundary_init u lbm =
  Some (with_flags (flags_after_pass lbm) (with_u_x (u_x_after_pass u lbm) lbm)).
Proof.
  intros Ha.
  destruct (boundary_init_cells u lbm Ha) as (lbm' & -> & Hfr & Hcells).
  f_equal.
  destruct Ha as (Hfl & Hux & _).
  destruct Hfr as (HNx & HNy & HNz & Huy & Huz & Hrho & Ht & Hlf & Hlu).
  assert (Hflags : flags lbm' = flags_after_pass lbm).
  { apply list_eq. intros i. unfold flags_after_pass. rewrite list_lookup_imap.
    destruct (decide (i < Z.to_nat (get_N lbm))%nat) as [Hi|Hi].
    - destruct (Hcells (Z.of_nat i)) as [Hf _]; [lia|].
      rewrite Nat2Z.id in Hf. rewrite Hf. unfold flag_after. rewrite Nat2Z.id.
      destruct (lookup_lt_is_Some_2 (flags lbm) i) as [f ->]; [lia|].
      simpl. by destruct (edge_cell lbm (Z.of_nat i)).
    - rewrite !lookup_ge_None_2 by lia. done. }
  assert (Hu_x : u_x lbm' = u_x_after_pass u lbm).
  { apply list_eq. intros i. unfold u_x_after_pass. rewrite lookup_zip_with.
    destruct (decide (i < Z.to_nat (get_N lbm))%nat) as [Hi|Hi].
    - destruct (Hcells (Z.of_nat i)) as [_ Hv]; [lia|].
      rewrite Nat2Z.id in Hv. rewrite Hv. unfold u_x_after. rewrite Nat2Z.id.
      destruct (lookup_lt_is_Some_2 (flags lbm) i) as [f Hf]; [lia|].
      destruct (lookup_lt_is_Some_2 (u_x lbm) i) as [v Hv']; [lia|].
      unfold uchar in *. rewrite Hf, Hv'. simpl.
      destruct (Z.eqb_spec f TYPE_S) as [->|Hne].
      + by rewrite bool_decide_eq_true_2.
      + rewrite bool_decide_eq_false_2; [done|congruence].
    - rewrite (lookup_ge_None_2 (u_x lbm')) by lia.
      rewrite (lookup_ge_None_2 (flags lbm)) by lia. done. }
  destruct lbm', lbm; unfold with_flags, with_u_x; simpl in *; congruence.
Qed.

(** X4.  The pass keeps the grid allocated: the cell count and the sizes
    of all five per-cell fields are what they were, so the engine can
    index the fields it is handed exactly as before. *)
Theorem X4_pass_keeps_allocation (lbm : LBM) :
  allocated lbm →
  ∃ lbm', boundary_init u lbm = Some lbm' ∧ allocated lbm' ∧
    get_N lbm' = get_N lbm ∧
    length (flags lbm') = length (flags lbm) ∧
    length (u_x lbm') = length (u_x lbm).
Proof.
  intros Ha.
  destruct (boundary_init_cells u lbm Ha) as (lbm' & Hrun & Hfr & _).
  exists lbm'. split; [done|].
  split; [by eapply same_frame_allocated|].
  split; [by apply same_frame_get_N|].
  by destruct Hfr as (_ & _ & _ & _ & _ & _ & _ & ? & ?).
Qed.

(** The body of a cell reads [flags[n]] and keeps the size of the flag
    field and the grid shape. *)
Lemma init_cell_reads_flag n lbm lbm' :
  init_cell u n lbm = Some lbm' →
  0 ≤ n ∧ (Z.to_nat n < length (flags lbm))%nat ∧
  length (flags lbm') = length (flags lbm).
Proof.
  unfold init_cell. intros Hcell.
  destruct (load (flags lbm) n) as [f|] eqn:Hf; [|done].
  apply load_Some in Hf as [Hn Hlk]. apply lookup_lt_Some in Hlk.
  split; [done|]. split; [done|]. simpl in Hcell.
  destruct (negb (f =? TYPE_S)); simpl in Hcell.
  - destruct (store (u_x lbm) n u) as [ux|]; [|done]. simpl in Hcell.
    destruct (on_edge _ _ _ _); simpl in Hcell.
    + unfold store in Hcell. case_bool_decide; [|done].
      simpl in Hcell. injection Hcell as <-. simpl. apply length_insert.
    + by injection Hcell as <-.
  - destruct (on_edge _ _ _ _); simpl in Hcell.
    + unfold store in Hcell. case_bool_decide; [|done].
      simpl in Hcell. injection Hcell as <-. simpl. apply length_insert.
    + by injection Hcell as <-.
Qed.

Lemma for_each_reads_flags sched : ∀ lbm lbm',
  for_each (init_cell u) sched lbm = Some lbm' →
  ∀ n, n ∈ sched → 0 ≤ n ∧ (Z.to_nat n < length (flags lbm))%nat.
Proof.
  induction sched as [|m rest IH]; intros lbm lbm' Hrun n Hn.
  - by apply not_elem_of_nil in Hn.
  - simpl in Hrun.
    destruct (init_cell u m lbm) as [lbm1|] eqn:Hcell; [|done].
    simpl in Hrun.
    destruct (init_cell_reads_flag _ _ _ Hcell) as (Hm & Hlt & Hlen).
    apply elem_of_cons in Hn as [->|Hn]; [done|].
    rewrite <- Hlen. by apply (IH lbm1 lbm').
Qed.

(** X5.  The pass reads [flags[n]] for every [n] below [get_N]: on a grid
    whose flag field has fewer slots than the grid has cells it runs out
    of the field, which the model reports as [None]. *)
Theorem X5_pass_out_of_bounds (lbm : LBM) :
  (length (flags lbm) < Z.to_nat (get_N lbm))%nat →
  boundary_init u lbm = None.
Proof.
  intros Hshort. destruct (boundary_init u lbm) as [lbm'|] eqn:Hrun; [|done].
  exfalso. unfold boundary_init, parallel_for in Hrun.
  destruct (for_each_reads_flags _ _ _ Hrun (get_N lbm - 1)) as [_ Hlt].
  - apply elem_of_seqZ. lia.
  - lia.
Qed.

(** X7.  A grid that is at most two cells thick in some direction has no
    interior: provided [coordinates] returns coordinates inside the grid,
    the pass turns the flag of every cell into [TYPE_E]. *)
Theorem X7_thin_grid_all_TYPE_E (lbm : LBM) :
  allocated lbm →
  (∀ n x y z, 0 ≤ n < get_N lbm →
     coordinates (get_Nx lbm) (get_Ny lbm) (get_Nz lbm) n = (x, y, z) →
     0 ≤ x < get_Nx lbm ∧ 0 ≤ y < get_Ny lbm ∧ 0 ≤ z < get_Nz lbm) →
  get_Nx lbm ≤ 2 ∨ get_Ny lbm ≤ 2 ∨ get_Nz lbm ≤ 2 →
  ∃ lbm', boundary_init u lbm = Some lbm' ∧
    ∀ n, 0 ≤ n < get_N lbm → load (flags lbm') n = Some TYPE_E.
Proof.
  intros Ha Hcoord Hthin.
  destruct (boundary_init_loads u lbm Ha) as (lbm' & Hrun & _ & Hall).
  exists lbm'. split; [done|]. intros n Hn.
  destruct (Hall n) as [(_ & _ & Hf & _)|(_ & Hnone & _)].
  - rewrite Hf. unfold flag_after, edge_cell.
    destruct (coordinates (get_Nx lbm) (get_Ny lbm) (get_Nz lbm) n)
      as [[x y] z] eqn:Hxyz.
    destruct (Hcoord n x y z Hn Hxyz) as (Hx & Hy & Hz).
    assert (Hedge : on_edge (get_Nx lbm) (get_Ny lbm) (get_Nz lbm) (x, y, z) = true).
    { unfold on_edge, wrap32. rewrite !orb_true_iff, !Z.eqb_eq.
      destruct Hthin as [H2|[H2|H2]].
      - assert (x = 0 ∨ x = (get_Nx lbm - 1) mod 2 ^ 32)
          by (rewrite Z.mod_small by lia; lia). tauto.
      - assert (y = 0 ∨ y = (get_Ny lbm - 1) mod 2 ^ 32)
          by (rewrite Z.mod_small by lia; lia). tauto.
      - assert (z = 0 ∨ z = (get_Nz lbm - 1) mod 2 ^ 32)
          by (rewrite Z.mod_small by lia; lia). tauto. }
    by rewrite Hedge.
  - exfalso. destruct Ha as (Hfl & _). unfold load in Hnone.
    rewrite bool_decide_eq_true_2 in Hnone by lia.
    apply lookup_ge_None_1 in Hnone. lia.
Qed.

(** X8.  Running the pass a second time changes no flag, and leaves the
    velocity x-component of every cell that was not [TYPE_S] before the
    first pass as the first pass set it; only edge cells that the first
    pass turned from [TYPE_S] into [TYPE_E] can be seeded by the second. *)
Theorem X8_second_pass (lbm : LBM) :
  allocated lbm →
  ∃ lbm' lbm'', boundary_init u lbm = Some lbm' ∧
    boundary_init u lbm' = Some lbm'' ∧
    flags lbm'' = flags lbm' ∧
    (∀ n, load (flags lbm) n ≠ Some TYPE_S →
          load (u_x lbm'') n = load (u_x lbm') n) ∧
    (∀ n, load (u_x lbm'') n ≠ load (u_x lbm') n →
          edge_cell lbm n = true ∧ load (flags lbm) n = Some TYPE_S).
Proof.
  intros Ha.
  destruct (boundary_init_loads u lbm Ha) as (lbm' & Hrun & Hfr & Hall).
  pose proof (same_frame_allocated _ _ Hfr Ha) as Ha'.
  pose proof (same_frame_get_N _ _ Hfr) as HN.
  destruct (boundary_init_loads u lbm' Ha') as (lbm'' & Hrun' & Hfr' & Hall').
  exists lbm', lbm''. split; [done|]. split; [done|].
  assert (Hux : ∀ n, load (u_x lbm'') n = load (u_x lbm') n ∨
                     (edge_cell lbm n = true ∧ load (flags lbm) n = Some TYPE_S)).
  { intros n.
    destruct (Hall' n) as [(Hn & Hsome & _ & Hu2 & Hlf2 & Hlu2)|(_ & _ & ? & ?)];
      [|left; congruence].
    destruct (Hall n) as [(_ & _ & Hf1 & Hu1 & Hlf1 & Hlu1)|(Hnone & _)];
      [|destruct Hsome; congruence].
    rewrite Hu2. unfold u_x_after. rewrite <- Hlf2, <- Hlu2.
    case_bool_decide as Hs2; [by left|].
    rewrite Hu1. unfold u_x_after. rewrite <- Hlf1.
    case_bool_decide as Hs1; [|by left].
    rewrite Hf1 in Hs2. unfold flag_after in Hs2.
    destruct (edge_cell lbm n); [by right|]. rewrite <- Hlf1 in Hs2. done. }
  split; [|split; [|intros n Hch; destruct (Hux n) as [|]; done]].
  - apply list_eq. intros i.
    destruct Ha' as (Hfl' & _).
    destruct Hfr' as (_ & _ & _ & _ & _ & _ & _ & Hlen & _).
    destruct (decide (i < Z.to_nat (get_N lbm'))%nat) as [Hi|Hi].
    + destruct (Hall' (Z.of_nat i)) as [(_ & _ & Hf2 & _ & Hlf2 & _)|(_ & Hnone & _)].
      * destruct (Hall (Z.of_nat i)) as [(_ & _ & Hf1 & _)|(Hnone & _)].
        -- unfold load in Hf2, Hf1, Hlf2.
           rewrite !bool_decide_eq_true_2, Nat2Z.id in Hf2, Hf1, Hlf2 by lia.
           rewrite Hf2. unfold flag_after in *.
           rewrite (same_frame_edge _ _ _ Hfr), Nat2Z.id.
           destruct (edge_cell lbm (Z.of_nat i)); [by rewrite Hf1|done].
        -- unfold load in Hnone. rewrite bool_decide_eq_true_2, Nat2Z.id in Hnone by lia.
           apply lookup_ge_None_1 in Hnone. lia.
      * unfold load in Hnone. rewrite bool_decide_eq_true_2, Nat2Z.id in Hnone by lia.
        apply lookup_ge_None_1 in Hnone. lia.
    + rewrite !lookup_ge_None_2 by lia. done.
  - intros n Hns. destruct (Hux n) as [|[_ Hs]]; done.
Qed.

End BoundaryInitMore.

(** X6.  For grid dimensions that fit a [uint] and coordinates inside the
    grid, the edge test of line 19 fails exactly for the cells that are
    strictly inside in all three directions: [Nx-1u] does not wrap. *)
Theorem X6_on_edge_is_the_six_faces (Nx Ny Nz x y z : uint) :
  1 ≤ Nx < 2 ^ 32 → 1 ≤ Ny < 2 ^ 32 → 1 ≤ Nz < 2 ^ 32 →
  0 ≤ x < Nx → 0 ≤ y < Ny → 0 ≤ z < Nz →
  on_edge Nx Ny Nz (x, y, z) = false ↔
  0 < x < Nx - 1 ∧ 0 < y < Ny - 1 ∧ 0 < z < Nz - 1.
Proof.
  intros HNx HNy HNz Hx Hy Hz. unfold on_edge, wrap32.
  rewrite !orb_false_iff, !Z.eqb_neq, !Z.mod_small by lia. lia.
Qed.

(** * Further properties of the run loop *)

Section ControllerMore.

Variable E : Engine.
Variable FORCE_FIELD : bool.
Variable T : ulong.

(** X9.  With [running] held true and the pause flag held in the running
    position, a loop entered at [0 <= t0 <= T] issues exactly
    [(T - t0) / 20 + 1] batches and then terminates; the step counter
    ends beyond the budget by at most one batch: [T < t <= T + 20]. *)
Theorem X9_batch_count_and_overshoot (env : Env) (k : nat) (w : World) :
  run_advances E → export_keeps_t E →
  (∀ j s, running (env j s) = true ∧ key_P (env j s) = true) →
  T + 20 < 2 ^ 64 →
  0 ≤ get_t (lbm w) ≤ T →
  ∃ w', main_loop E FORCE_FIELD T env
                  (S (Z.to_nat ((T - get_t (lbm w)) / 20 + 1))) k w
        = Terminated w' ∧
    Z.of_nat (batches (log w')) =
      Z.of_nat (batches (log w)) + (T - get_t (lbm w)) / 20 + 1 ∧
    get_t (lbm w') = get_t (lbm w) + 20 * ((T - get_t (lbm w)) / 20 + 1) ∧
    T < get_t (lbm w') ≤ T + 20.
Proof.
  intros Hrun Hexp Henv HT Ht.
  set (q := (T - get_t (lbm w)) / 20).
  assert (Hq : 0 ≤ q ∧ 20 * q ≤ T - get_t (lbm w) < 20 * q + 20).
  { unfold q. split; [apply Z.div_pos; lia|].
    pose proof (Z.div_mod (T - get_t (lbm w)) 20 ltac:(lia)) as Hdm.
    pose proof (Z.mod_pos_bound (T - get_t (lbm w)) 20 ltac:(lia)) as Hm.
    lia. }
  destruct (main_loop_batches E FORCE_FIELD T env Hrun Hexp Henv HT
              (Z.to_nat (q + 1)) k w) as (w' & Hloop & Hb & Ht');
    [lia | lia | right; lia |].
  exists w'. split; [exact Hloop|]. rewrite Hb, Ht'. lia.
Qed.

(** X10.  Whatever the input handler does (pauses, exports, a stop), the
    step counter moves only by whole batches of 20 and never passes the
    budget by more than one batch: at any point of the loop
    [t = t0 + 20 * (batches issued)] and [t <= T + 20]. *)
Theorem X10_time_moves_in_batches (env : Env) (fuel : nat) :
  run_advances E → export_keeps_t E → T + 20 < 2 ^ 64 →
  ∀ k w, 0 ≤ get_t (lbm w) ≤ T + 20 →
    get_t (lbm (world_of (main_loop E FORCE_FIELD T env fuel k w))) +
      20 * Z.of_nat (batches (log w)) =
    get_t (lbm w) +
      20 * Z.of_nat (batches (log (world_of (main_loop E FORCE_FIELD T env fuel k w)))) ∧
    0 ≤ get_t (lbm (world_of (main_loop E FORCE_FIELD T env fuel k w))) ≤ T + 20.
Proof.
  intros Hrun Hexp HT.
  induction fuel as [|fuel IH]; intros k w Ht; cbn [main_loop].
  - simpl. lia.
  - destruct (loop_guard T (poll env k w)) eqn:Hg; [|simpl; lia].
    unfold loop_guard in Hg. apply andb_true_iff in Hg as [Hle _].
    apply Z.leb_le in Hle. simpl in Hle.
    set (w1 := loop_body E FORCE_FIELD T (poll env k w)).
    destruct (loop_body_log E FORCE_FIELD T (poll env k w))
      as (a & Hlog & Hba & _).
    fold w1 in Hlog. simpl in Hlog, Hba.
    assert (Hb1 : batches (log w1) =
                  (batches (log w) + if key_P (env k (sig w)) then 1 else 0)%nat).
    { rewrite Hlog. unfold batches in *. by rewrite count_app, Hba. }
    assert (Ht1 : get_t (lbm w1) =
                  get_t (lbm w) + if key_P (env k (sig w)) then 20 else 0).
    { unfold w1. rewrite loop_body_t by done. simpl.
      destruct (key_P (env k (sig w))); [|lia].
      rewrite Hrun, handle_key_9_t by done. simpl.
      unfold wrap64. apply Z.mod_small. lia. }
    destruct (IH (S k) w1) as [Hacc Hbound].
    { rewrite Ht1. destruct (key_P (env k (sig w))); lia. }
    split; [|exact Hbound].
    rewrite Hb1, Ht1 in Hacc. destruct (key_P (env k (sig w))); lia.
Qed.



(** X12.  A stop request that is already there when the loop is first
    reached: the run still writes the status, performs the warm-up
    [run(0, T)] and writes the status again, but issues no batch and no
    export; the signals are left exactly as the input handler set them,
    so a pending [key_9] is neither honoured nor cleared. *)
Theorem X12_stopped_before_first_tick (env : Env) (fuel : nat) (w : World) :
  running (env 0%nat (sig w)) = false →
  ∃ w', controller E FORCE_FIELD T env (S fuel) w = Terminated w' ∧
    log w' = log w ++ [EvWriteStatus; EvRun 0 T; EvWriteStatus] ∧
    sig w' = env 0%nat (sig w) ∧
    lbm w' = write_status E (run E 0 T (write_status E (lbm w))).
Proof.
  intros Hstop. unfold controller. cbn [main_loop].
  assert (Hg : loop_guard T (poll env 0 (call_run E 0 T (call_write_status E w)))
               = false).
  { apply loop_guard_false. right. exact Hstop. }
  rewrite Hg. eexists. split; [done|]. simpl.
  split; [by rewrite <- !app_assoc|done].
Qed.

(** Every run starts with the status write and the warm-up. *)
Lemma controller_log_prefix env fuel w :
  ∃ rest,
    log (world_of (controller E FORCE_FIELD T env fuel w)) =
      log w ++ [EvWriteStatus; EvRun 0 T] ++ rest ∧
    (status_writes rest ≤ 1)%nat.
Proof.
  unfold controller.
  destruct (main_loop_log E FORCE_FIELD T env fuel 0%nat
              (call_run E 0 T (call_write_status E w))) as (mid & Hlog & Hmid).
  destruct (main_loop E FORCE_FIELD T env fuel 0
              (call_run E 0 T (call_write_status E w))) as [v|v];
    simpl in Hlog |- *; rewrite Hlog.
  - exists (mid ++ [EvWriteStatus]). split; [by rewrite <- !app_assoc|].
    unfold status_writes in *. rewrite count_app, Hmid. unfold count. simpl. lia.
  - exists mid. split; [by rewrite <- !app_assoc|].
    unfold status_writes in *. lia.
Qed.

End ControllerMore.

(** X13.  The order of [main_setup]: once the voxelizer has returned an
    allocated grid, the boundary pass runs to its end first, every edge
    cell of the grid it hands on carries [TYPE_E], and only then come the
    engine calls, which start with the status write and the warm-up
    [run(0, 108000)]; at most one further status write follows. *)
Theorem X13_main_setup_order {L : Lattice} (E : Engine) (FORCE_FIELD : bool)
    (voxelize_stl : LBM → LBM) (env : Env) (fuel : nat) (lbm0 : LBM)
    (sig0 : Signals) :
  allocated (voxelize_stl lbm0) →
  ∃ lbm1 rest,
    boundary_init lbm_u (voxelize_stl lbm0) = Some lbm1 ∧
    (∀ n, 0 ≤ n < get_N (voxelize_stl lbm0) →
          edge_cell (voxelize_stl lbm0) n = true →
          load (flags lbm1) n = Some TYPE_E) ∧
    main_setup E FORCE_FIELD voxelize_stl env fuel lbm0 sig0 =
      Some (controller E FORCE_FIELD lbm_T env fuel (mkWorld lbm1 sig0 [])) ∧
    log (world_of (controller E FORCE_FIELD lbm_T env fuel (mkWorld lbm1 sig0 []))) =
      [EvWriteStatus; EvRun 0 lbm_T] ++ rest ∧
    (status_writes rest ≤ 1)%nat.
Proof.
  intros Ha.
  destruct (boundary_init_loads lbm_u _ Ha) as (lbm1 & Hpass & _ & Hall).
  destruct (controller_log_prefix E FORCE_FIELD lbm_T env fuel
              (mkWorld lbm1 sig0 [])) as (rest & Hlog & Hrest).
  exists lbm1, rest. split; [done|]. split.
  - intros n Hn Hedge.
    destruct (Hall n) as [(_ & _ & Hf & _)|(_ & Hnone & _)].
    + rewrite Hf. unfold flag_after. by rewrite Hedge.
    + exfalso. destruct Ha as (Hfl & _). unfold load in Hnone.
      rewrite bool_decide_eq_true_2 in Hnone by lia.
      apply lookup_ge_None_1 in Hnone. lia.
  - split; [|done]. unfold main_setup. by rewrite Hpass.
Qed.

(** * The further properties on the worked examples *)

Lemma X1_witness :
  allocated voxelized_3x3x3 ∧
  reverse (seqZ 0 27) ≡ₚ seqZ 0 (get_N voxelized_3x3x3) ∧
  for_each (@init_cell fluidx3d lbm_u) (reverse (seqZ 0 27)) voxelized_3x3x3 =
  @boundary_init fluidx3d lbm_u voxelized_3x3x3.
Proof.
  assert (Ha : allocated voxelized_3x3x3) by (repeat split).
  assert (Hp : reverse (seqZ 0 27) ≡ₚ seqZ 0 (get_N voxelized_3x3x3))
    by (apply reverse_Permutation).
  split; [exact Ha|]. split; [exact Hp|].
  exact (proj1 (@X1_pass_schedule_independent fluidx3d lbm_u
                  (reverse (seqZ 0 27)) voxelized_3x3x3 Ha Hp)).
Defined.

Lemma X2_witness :
  allocated voxelized_3x3x3 ∧
  ∃ lbm', @boundary_init fluidx3d lbm_u voxelized_3x3x3 = Some lbm' ∧
    ∀ n, 0 ≤ n < get_N voxelized_3x3x3 →
         load (flags voxelized_3x3x3) n ≠ Some (@TYPE_S fluidx3d) →
         load (u_x lbm') n = Some lbm_u.
Proof.
  assert (Ha : allocated voxelized_3x3x3) by (repeat split).
  split; [exact Ha|].
  exact (@X2_non_solid_cells_seeded fluidx3d lbm_u voxelized_3x3x3 Ha).
Defined.

Lemma X3_witness :
  allocated voxelized_3x3x3 ∧
  @boundary_init fluidx3d lbm_u voxelized_3x3x3 =
  Some (with_flags (@flags_after_pass fluidx3d voxelized_3x3x3)
          (with_u_x (@u_x_after_pass fluidx3d lbm_u voxelized_3x3x3)
                    voxelized_3x3x3)).
Proof.
  assert (Ha : allocated voxelized_3x3x3) by (repeat split).
  split; [exact Ha|].
  exact (@X3_boundary_init_closed_form fluidx3d lbm_u voxelized_3x3x3 Ha).
Defined.

Lemma X4_witness :
  allocated voxelized_3x3x3 ∧
  ∃ lbm', @boundary_init fluidx3d lbm_u voxelized_3x3x3 = Some lbm' ∧
    allocated lbm' ∧ get_N lbm' = get_N voxelized_3x3x3 ∧
    length (flags lbm') = length (flags voxelized_3x3x3) ∧
    length (u_x lbm') = length (u_x voxelized_3x3x3).
Proof.
  assert (Ha : allocated voxelized_3x3x3) by (repeat split).
  split; [exact Ha|].
  exact (@X4_pass_keeps_allocation fluidx3d lbm_u voxelized_3x3x3 Ha).
Defined.

Lemma X5_witness :
  (length (flags short_flags_3x3x3) < Z.to_nat (get_N short_flags_3x3x3))%nat ∧
  @boundary_init fluidx3d lbm_u short_flags_3x3x3 = None.
Proof.
  assert (Hshort : (length (flags short_flags_3x3x3)
                    < Z.to_nat (get_N short_flags_3x3x3))%nat)
    by (vm_compute; lia).
  split; [exact Hshort|].
  exact (@X5_pass_out_of_bounds fluidx3d lbm_u short_flags_3x3x3 Hshort).
Defined.

Lemma X6_witness :
  on_edge 3 3 3 (1, 1, 1) = false ↔
  0 < 1 < 3 - 1 ∧ 0 < 1 < 3 - 1 ∧ 0 < 1 < 3 - 1.
Proof.
  exact (X6_on_edge_is_the_six_faces 3 3 3 1 1 1
           ltac:(lia) ltac:(lia) ltac:(lia) ltac:(lia) ltac:(lia) ltac:(lia)).
Defined.

Lemma X7_witness :
  allocated flat_3x3x1 ∧
  (get_Nx flat_3x3x1 ≤ 2 ∨ get_Ny flat_3x3x1 ≤ 2 ∨ get_Nz flat_3x3x1 ≤ 2) ∧
  ∃ lbm', @boundary_init fluidx3d lbm_u flat_3x3x1 = Some lbm' ∧
    ∀ n, 0 ≤ n < get_N flat_3x3x1 →
         load (flags lbm') n = Some (@TYPE_E fluidx3d).
Proof.
  assert (Ha : allocated flat_3x3x1) by (repeat split).
  assert (Hthin : get_Nx flat_3x3x1 ≤ 2 ∨ get_Ny flat_3x3x1 ≤ 2 ∨
                  get_Nz flat_3x3x1 ≤ 2)
    by (right; right; vm_compute; discriminate).
  assert (Hcoord : ∀ n x y z, 0 ≤ n < get_N flat_3x3x1 →
            @coordinates fluidx3d (get_Nx flat_3x3x1) (get_Ny flat_3x3x1)
                         (get_Nz flat_3x3x1) n = (x, y, z) →
            0 ≤ x < get_Nx flat_3x3x1 ∧ 0 ≤ y < get_Ny flat_3x3x1 ∧
            0 ≤ z < get_Nz flat_3x3x1).
  { intros n x y z Hn Hxyz.
    change (get_N flat_3x3x1) with 9 in Hn.
    assert (Hcases : n = 0 ∨ n = 1 ∨ n = 2 ∨ n = 3 ∨ n = 4 ∨ n = 5 ∨
                     n = 6 ∨ n = 7 ∨ n = 8) by lia.
    destruct Hcases as [->|[->|[->|[->|[->|[->|[->|[->| ->]]]]]]]];
      vm_compute in Hxyz; injection Hxyz as <- <- <-; vm_compute;
      repeat split; discriminate. }
  split; [exact Ha|]. split; [exact Hthin|].
  exact (@X7_thin_grid_all_TYPE_E fluidx3d lbm_u flat_3x3x1 Ha Hcoord Hthin).
Defined.

Lemma X8_witness :
  allocated voxelized_3x3x3 ∧
  ∃ lbm' lbm'', @boundary_init fluidx3d lbm_u voxelized_3x3x3 = Some lbm' ∧
    @boundary_init fluidx3d lbm_u lbm' = Some lbm'' ∧
    flags lbm'' = flags lbm' ∧
    (∀ n, load (flags voxelized_3x3x3) n ≠ Some (@TYPE_S fluidx3d) →
          load (u_x lbm'') n = load (u_x lbm') n) ∧
    (∀ n, load (u_x lbm'') n ≠ load (u_x lbm') n →
          @edge_cell fluidx3d voxelized_3x3x3 n = true ∧
          load (flags voxelized_3x3x3) n = Some (@TYPE_S fluidx3d)).
Proof.
  assert (Ha : allocated voxelized_3x3x3) by (repeat split).
  split; [exact Ha|].
  exact (@X8_second_pass fluidx3d lbm_u voxelized_3x3x3 Ha).
Defined.

(** The second pass on the 3x3x3 grid does seed the corner that the first
    pass turned from solid into an open boundary. *)
Example second_pass_seeds_former_solid_corner :
  (lbm' ← @boundary_init fluidx3d lbm_u voxelized_3x3x3;
   lbm'' ← @boundary_init fluidx3d lbm_u lbm';
   Some (load (u_x lbm') 0, load (u_x lbm'') 0)) =
  Some (Some zero_f, Some lbm_u).
Proof. vm_compute. reflexivity. Qed.

Lemma X9_witness :
  run_advances clock_engine ∧ export_keeps_t clock_engine ∧
  (∀ j s, running (running_unpaused j s) = true ∧
          key_P (running_unpaused j s) = true) ∧
  100 + 20 < 2 ^ 64 ∧ 0 ≤ get_t (lbm fresh_world) ≤ 100 ∧
  ∃ w', main_loop clock_engine false 100 running_unpaused
          (S (Z.to_nat ((100 - get_t (lbm fresh_world)) / 20 + 1))) 0 fresh_world
        = Terminated w' ∧
    Z.of_nat (batches (log w')) =
      Z.of_nat (batches (log fresh_world)) +
      (100 - get_t (lbm fresh_world)) / 20 + 1 ∧
    get_t (lbm w') =
      get_t (lbm fresh_world) + 20 * ((100 - get_t (lbm fresh_world)) / 20 + 1) ∧
    100 < get_t (lbm w') ≤ 100 + 20.
Proof.
  assert (Henv : ∀ j s, running (running_unpaused j s) = true ∧
                        key_P (running_unpaused j s) = true)
    by (intros j s; split; reflexivity).
  assert (HT : 100 + 20 < 2 ^ 64) by lia.
  assert (Ht : 0 ≤ get_t (lbm fresh_world) ≤ 100)
    by (vm_compute; split; discriminate).
  split; [exact clock_engine_advances|]. split; [exact clock_engine_keeps_t|].
  split; [exact Henv|]. split; [exact HT|]. split; [exact Ht|].
  exact (X9_batch_count_and_overshoot clock_engine false 100 running_unpaused
           0 fresh_world clock_engine_advances clock_engine_keeps_t Henv HT Ht).
Defined.

Lemma X10_witness :
  run_advances clock_engine ∧ export_keeps_t clock_engine ∧
  100 + 20 < 2 ^ 64 ∧ 0 ≤ get_t (lbm fresh_world) ≤ 100 + 20 ∧
  0 ≤ get_t (lbm (world_of (main_loop clock_engine false 100 key_9_at_1 10 0
                              fresh_world))) ≤ 100 + 20.
Proof.
  assert (HT : 100 + 20 < 2 ^ 64) by lia.
  assert (Ht : 0 ≤ get_t (lbm fresh_world) ≤ 100 + 20)
    by (vm_compute; split; discriminate).
  split; [exact clock_engine_advances|]. split; [exact clock_engine_keeps_t|].
  split; [exact HT|]. split; [exact Ht|].
  exact (proj2 (X10_time_moves_in_batches clock_engine false 100 key_9_at_1 10
                  clock_engine_advances clock_engine_keeps_t HT 0%nat
                  fresh_world Ht)).
Defined.

Lemma X12_witness :
  running (stopped_key_9_pressed 0%nat (sig triggered_world)) = false ∧
  ∃ w', controller clock_engine false 100 stopped_key_9_pressed 5 triggered_world
        = Terminated w' ∧
    log w' = log triggered_world ++ [EvWriteStatus; EvRun 0 100; EvWriteStatus] ∧
    sig w' = stopped_key_9_pressed 0%nat (sig triggered_world) ∧
    lbm w' = write_status clock_engine
               (run clock_engine 0 100
                  (write_status clock_engine (lbm triggered_world))).
Proof.
  split; [reflexivity|].
  exact (X12_stopped_before_first_tick clock_engine false 100
           stopped_key_9_pressed 4 triggered_world eq_refl).
Defined.

Lemma X13_witness :
  allocated ((λ _ : LBM, voxelized_3x3x3) flat_3x3x1) ∧
  ∃ lbm1 rest,
    @boundary_init fluidx3d lbm_u voxelized_3x3x3 = Some lbm1 ∧
    (∀ n, 0 ≤ n < get_N voxelized_3x3x3 →
          @edge_cell fluidx3d voxelized_3x3x3 n = true →
          load (flags lbm1) n = Some (@TYPE_E fluidx3d)) ∧
    @main_setup fluidx3d clock_engine false (λ _, voxelized_3x3x3)
                running_unpaused 3 flat_3x3x1 go =
      Some (controller clock_engine false lbm_T running_unpaused 3
              (mkWorld lbm1 go [])) ∧
    log (world_of (controller clock_engine false lbm_T running_unpaused 3
                     (mkWorld lbm1 go []))) =
      [EvWriteStatus; EvRun 0 lbm_T] ++ rest ∧
    (status_writes rest ≤ 1)%nat.
Proof.
  assert (Ha : allocated ((λ _ : LBM, voxelized_3x3x3) flat_3x3x1))
    by (repeat split).
  split; [exact Ha|].
  exact (@X13_main_setup_order fluidx3d clock_engine false
           (λ _, voxelized_3x3x3) running_unpaused 3 flat_3x3x1 go Ha).
Defined.
